(** * TestInterBox: the eBay page scraper and the REST Countries client

    A shallow embedding of [ebay.py] and [restcountries.py].  Python code
    that prints, writes files, drives a browser or mutates a dictionary is
    written in a state-and-exception monad over an explicit world; what
    lies outside the two scripts (the pages a browser finds, the answers of
    the HTTP server) is a component of that world. *)

From Stdlib Require Import ZArith String Ascii List Lia.
From Stdlib Require Import Floats.
From stdpp Require Import base option list strings gmap pretty.

Open Scope string_scope.
Open Scope list_scope.
Set Warnings "-register-all".
Set Default Proof Using "Type".

(** ** Python: results, exceptions and control flow *)
Module Python.

(** The exception classes the two scripts name or can meet.
    [JSONDecodeError] is the decoder's error (a subclass of [ValueError]);
    [OtherException] stands for an instance of any class outside this list
    and its subclasses (a [WebDriverException] that is neither of the two
    selenium classes above, a [ConnectionError], ...). *)
Inductive ExcClass :=
| NoSuchElementException
| TimeoutException
| JSONDecodeError
| TypeError
| KeyError
| ValueError
| OtherException (cls : string).

#[global] Instance ExcClass_eq_dec : EqDecision ExcClass.
Proof. solve_decision. Defined.

(** An exception object: its class and the text [str(ex)] gives. *)
Record Exception := mkExc { exc_class : ExcClass; exc_str : string }.

Inductive result (A : Type) :=
| Returned (a : A)
| Raised (e : Exception).
Arguments Returned {A} a.
Arguments Raised {A} e.

(** A Python computation over a world [W]: it returns or raises, and leaves
    a world behind in both cases. *)
Definition M (W A : Type) : Type := W -> result A * W.

Definition ret {W A} (a : A) : M W A := fun w => (Returned a, w).
Definition raise {W A} (e : Exception) : M W A := fun w => (Raised e, w).
Definition bind {W A B} (m : M W A) (k : A -> M W B) : M W B :=
  fun w => match m w with
           | (Returned a, w') => k a w'
           | (Raised e, w') => (Raised e, w')
           end.

#[global] Instance M_ret W : MRet (M W) := @ret W.
#[global] Instance M_bind W : MBind (M W) := fun A B k m => bind m k.

(** [lift r]: an outcome decided outside the script (by the page, by the
    server) enters the computation. *)
Definition lift {W A} (r : result A) : M W A := fun w => (r, w).

(** [try: body / except cls as ex: handler ex].  An exception of another
    class goes through. *)
Definition try_except {W A} (body : M W A) (cls : ExcClass)
    (handler : Exception -> M W A) : M W A :=
  fun w => match body w with
           | (Returned a, w') => (Returned a, w')
           | (Raised e, w') =>
               if decide (exc_class e = cls) then handler e w'
               else (Raised e, w')
           end.

(** [try: body / finally: final].  [final] runs on every way out of
    [body]; the outcome of [body] stands unless [final] itself raises. *)
Definition try_finally {W A} (body : M W A) (final : M W unit) : M W A :=
  fun w => match body w with
           | (r, w') =>
               match final w' with
               | (Returned _, w'') => (r, w'')
               | (Raised e, w'') => (Raised e, w'')
               end
           end.

(** [for x in xs: ys.append(f x)] *)
Fixpoint for_each {W A B} (xs : list A) (f : A -> M W B) : M W (list B) :=
  match xs with
  | [] => ret []
  | x :: xs' => y ← f x; ys ← for_each xs' f; ret (y :: ys)
  end.

(** Characters that need their code written out. *)
Definition quote_char : ascii := ascii_of_nat 34.
Definition newline_char : ascii := ascii_of_nat 10.
Definition quote : string := String quote_char EmptyString.
Definition newline : string := String newline_char EmptyString.

(** [sep.join(parts)] *)
Fixpoint join (sep : string) (parts : list string) : string :=
  match parts with
  | [] => ""
  | [p] => p
  | p :: ps => p +:+ sep +:+ join sep ps
  end.

(** A [dict] with string keys keeps the order its keys came in:
    [dict_get] is the lookup [d[key]], [dict_set] the assignment
    [d[key] = v], which keeps the place of a key that is there and puts a
    new key last. *)
Fixpoint dict_get {V} (key : string) (d : list (string * V)) : option V :=
  match d with
  | [] => None
  | (k, v) :: d' => if decide (k = key) then Some v else dict_get key d'
  end.

Fixpoint dict_set {V} (key : string) (v : V) (d : list (string * V))
  : list (string * V) :=
  match d with
  | [] => [(key, v)]
  | (k, x) :: d' =>
      if decide (k = key) then (k, v) :: d' else (k, x) :: dict_set key v d'
  end.

End Python.

Export Python.

(** ** ebay.py *)
Module EBay.

(** *** Values handed to [json.dumps] *)

(** A Python object as [write_to_file] and [write_to_console] can be given
    one.  A [dict] keeps its insertion order; its keys are strings.
    [POther] is an object of a type the encoder has no rule for ([bytes],
    [set], an instance of a user class, ...). *)
Inductive PyObj :=
| PNone
| PBool (b : bool)
| PInt (n : Z)
| PFloat (f : float)
| PStr (s : string)
| PList (items : list PyObj)
| PDict (entries : list (string * PyObj))
| POther (type_name : string).

(** *** [json.dumps(obj, indent=4)] *)

Definition hex_digit (n : N) : string :=
  substring (N.to_nat n) 1 "0123456789abcdef".

(** One character under [ensure_ascii=True]: the short escapes, then
    [\uXXXX] for whatever is not between space and tilde. *)
Definition escape_char (c : ascii) : string :=
  let n := N_of_ascii c in
  if (n =? 34)%N then "\" +:+ quote
  else if (n =? 92)%N then "\\"
  else if (n =? 8)%N then "\b"
  else if (n =? 12)%N then "\f"
  else if (n =? 10)%N then "\n"
  else if (n =? 13)%N then "\r"
  else if (n =? 9)%N then "\t"
  else if ((32 <=? n) && (n <=? 126))%N then String c EmptyString
  else "\u00" +:+ hex_digit (n / 16) +:+ hex_digit (n mod 16).

Fixpoint escape (s : string) : string :=
  match s with
  | EmptyString => ""
  | String c s' => escape_char c +:+ escape s'
  end.

Definition encode_basestring_ascii (s : string) : string :=
  quote +:+ escape s +:+ quote.

Fixpoint spaces (n : nat) : string :=
  match n with
  | O => ""
  | S n' => " " +:+ spaces n'
  end.

Section Encoder.

(** [float.__repr__], with the encoder's [NaN], [Infinity] and [-Infinity]
    for the values that are not finite. *)
Variable float_repr : float -> string.

(** The indentation unit, [indent] spaces. *)
Variable indent : nat.

Definition newline_indent (level : nat) : string :=
  newline +:+ spaces (indent * level).

(** The encoder at nesting depth [level].  An empty container is written
    on one line; an object of an unknown type raises [TypeError]. *)
Fixpoint encode (level : nat) (o : PyObj) {struct o} : result string :=
  match o with
  | PNone => Returned "null"
  | PBool true => Returned "true"
  | PBool false => Returned "false"
  | PInt n => Returned (pretty n)
  | PFloat f => Returned (float_repr f)
  | PStr s => Returned (encode_basestring_ascii s)
  | PList items =>
      match items with
      | [] => Returned "[]"
      | _ =>
          match
            (fix chunks (l : list PyObj) : result (list string) :=
               match l with
               | [] => Returned []
               | x :: l' =>
                   match encode (S level) x with
                   | Raised e => Raised e
                   | Returned s =>
                       match chunks l' with
                       | Raised e => Raised e
                       | Returned r => Returned (s :: r)
                       end
                   end
               end) items
          with
          | Raised e => Raised e
          | Returned cs =>
              Returned ("[" +:+ newline_indent (S level)
                        +:+ join ("," +:+ newline_indent (S level)) cs
                        +:+ newline_indent level +:+ "]")
          end
      end
  | PDict entries =>
      match entries with
      | [] => Returned "{}"
      | _ =>
          match
            (fix chunks (l : list (string * PyObj)) : result (list string) :=
               match l with
               | [] => Returned []
               | (k, x) :: l' =>
                   match encode (S level) x with
                   | Raised e => Raised e
                   | Returned s =>
                       match chunks l' with
                       | Raised e => Raised e
                       | Returned r =>
                           Returned ((encode_basestring_ascii k +:+ ": " +:+ s) :: r)
                       end
                   end
               end) entries
          with
          | Raised e => Raised e
          | Returned cs =>
              Returned ("{" +:+ newline_indent (S level)
                        +:+ join ("," +:+ newline_indent (S level)) cs
                        +:+ newline_indent level +:+ "}")
          end
      end
  | POther ty =>
      Raised (mkExc TypeError
                ("Object of type " +:+ ty +:+ " is not JSON serializable"))
  end.

Definition json_dumps (obj : PyObj) : result string := encode 0 obj.

End Encoder.

(** *** The browser and the pages it finds *)

Inductive By := CLASS_NAME | CSS_SELECTOR.

(** An element of a page, by what the driver answers about it: a call
    returns or raises (a stale element, a lost connection). *)
Inductive WebElement := Element {
  text : result string;
  get_attribute : string -> result (option string);
  find_elements : By -> string -> result (list WebElement)
}.

(** A page, by what the driver answers on it: whether loading it goes
    through, what a wait of [timeout] for an element ends in, and what a
    lookup finds. *)
Record Page := {
  load : result unit;
  wait_presence : nat -> By -> string -> result WebElement;
  find_element : By -> string -> result WebElement
}.

Definition no_such_element : Exception :=
  mkExc NoSuchElementException ("Message: None" +:+ newline).

Definition blank_page : Page :=
  {| load := Returned tt;
     wait_presence := fun _ _ _ => Raised (mkExc TimeoutException ("Message: " +:+ newline));
     find_element := fun _ _ => Raised no_such_element |}.

(** The world of the script: the site, the browser handle of the [EBay]
    object (its session, the page it shows, how often [quit] was called on
    it), the console and the files. *)
Record World := {
  web : string -> Page;
  session_open : bool;
  current_page : Page;
  quit_calls : nat;
  stdout : list string;
  files : gmap string string
}.

Abbreviation Py := (M World).

(** [EBay()]: a fresh browser on a blank page. *)
Definition new_world (site : string -> Page) (fs : gmap string string) : World :=
  {| web := site; session_open := true; current_page := blank_page;
     quit_calls := 0; stdout := []; files := fs |}.

Definition print (line : string) : Py unit :=
  fun w => (Returned tt,
            {| web := web w; session_open := session_open w;
               current_page := current_page w; quit_calls := quit_calls w;
               stdout := stdout w ++ [line]; files := files w |}).

Definition session_lost : Exception :=
  mkExc (OtherException "MaxRetryError") "Max retries exceeded".

(** A call to the driver: it needs the session. *)
Definition driver_call {A} (answer : World -> result A) : Py A :=
  fun w => if session_open w then (answer w, w) else (Raised session_lost, w).

(** [self.browser.get(url)] *)
Definition browser_get (url : string) : Py unit :=
  fun w =>
    if session_open w then
      match load (web w url) with
      | Returned _ =>
          (Returned tt,
           {| web := web w; session_open := true;
              current_page := web w url; quit_calls := quit_calls w;
              stdout := stdout w; files := files w |})
      | Raised e => (Raised e, w)
      end
    else (Raised session_lost, w).

(** [WebDriverWait(self.browser, timeout).until(EC.presence_of_element_located((by, value)))] *)
Definition wait_until_presence (timeout : nat) (by_ : By) (value : string) : Py WebElement :=
  driver_call (fun w => wait_presence (current_page w) timeout by_ value).

(** [self.browser.find_element(by, value)] *)
Definition browser_find_element (by_ : By) (value : string) : Py WebElement :=
  driver_call (fun w => find_element (current_page w) by_ value).

Definition element_text (e : WebElement) : Py string :=
  driver_call (fun _ => text e).

Definition element_get_attribute (e : WebElement) (name : string) : Py (option string) :=
  driver_call (fun _ => get_attribute e name).

Definition element_find_elements (e : WebElement) (by_ : By) (value : string)
  : Py (list WebElement) :=
  driver_call (fun _ => find_elements e by_ value).

(** [self.browser.quit()] *)
Definition browser_quit : Py unit :=
  fun w => (Returned tt,
            {| web := web w; session_open := false;
               current_page := current_page w; quit_calls := S (quit_calls w);
               stdout := stdout w; files := files w |}).

(** An attribute value as a Python object: a string, or [None] when the
    element has no such attribute. *)
Definition of_attribute (a : option string) : PyObj :=
  match a with
  | Some s => PStr s
  | None => PNone
  end.

(** *** Files *)

Definition set_files (fs : gmap string string) (w : World) : World :=
  {| web := web w; session_open := session_open w;
     current_page := current_page w; quit_calls := quit_calls w;
     stdout := stdout w; files := fs |}.

(** [with open(path, "w") as f: body]: the file is created or cut to
    nothing when it is opened, before [body] runs. *)
Definition with_open_w {A} (path : string) (body : string -> Py A) : Py A :=
  fun w => body path (set_files (<[path := ""]> (files w)) w).

(** [f.write(s)]: [s] goes after what the file holds. *)
Definition file_write (f : string) (s : string) : Py unit :=
  fun w => (Returned tt,
            set_files (<[f := default "" (files w !! f) +:+ s]> (files w)) w).

(** *** The class [EBay] *)

Definition path_file : string := "temp.json".

Section Methods.

Variable float_repr : float -> string.

Definition write_to_file (data : PyObj) : Py unit :=
  with_open_w path_file (fun f =>
    try_except
      (s ← lift (json_dumps float_repr 4 data); file_write f s)
      JSONDecodeError
      (fun ex => print ("JSONDecodeError " +:+ exc_str ex))).

Definition write_to_console (data : PyObj) : Py unit :=
  try_except
    (s ← lift (json_dumps float_repr 4 data); print s)
    JSONDecodeError
    (fun ex => print ("JSONDecodeError " +:+ exc_str ex)).

End Methods.

Definition title_class : string := "x-item-title__mainTitle".
Definition carousel_css : string := "#PicturePanel .ux-image-carousel-container .zoom".
Definition image_css : string := ".ux-image-carousel-item.image-treatment.image img".
Definition price_css : string :=
  ".x-price-section .x-bin-price__content .x-price-primary .ux-textspans".
Definition seller_class : string := "x-sellercard-atf__info__about-seller".
Definition shipping_css : string :=
  ".ux-layout-section--shipping .ux-labels-values--shipping "
  +:+ ".ux-labels-values__values .ux-textspans--BOLD".

(** The body of the outer [try] of [scrapper], up to the dictionary. *)
Definition scrape_fields (url : string) : Py PyObj :=
  name_ele ← try_except
                (wait_until_presence 10 CLASS_NAME title_class)
                TimeoutException
                (fun _ => print "TimeoutException for page";; raise no_such_element);
  name ← element_text name_ele;
  img_ele ← browser_find_element CSS_SELECTOR carousel_css;
  imgs ← element_find_elements img_ele CSS_SELECTOR image_css;
  path_img ← for_each imgs (fun img => element_get_attribute img "data-zoom-src");
  price_ele ← browser_find_element CSS_SELECTOR price_css;
  price ← element_text price_ele;
  seller_ele ← browser_find_element CLASS_NAME seller_class;
  seller ← element_get_attribute seller_ele "title";
  shipping_ele ← browser_find_element CSS_SELECTOR shipping_css;
  shipping_cost ← element_text shipping_ele;
  mret (PDict [("name", PStr name);
               ("path_img", PList (of_attribute <$> path_img));
               ("current_url", PStr url);
               ("price", PStr price);
               ("seller", of_attribute seller);
               ("shipping_cost", PStr shipping_cost)]).

(** [scrapper(url)]: the page is loaded before the [try]; [None] is
    returned as [PNone]. *)
Definition scrapper (url : string) : Py PyObj :=
  browser_get url;;
  try_finally
    (try_except
       (scrape_fields url)
       NoSuchElementException
       (fun ex => print ("NoSuchElementException: " +:+ exc_str ex);; mret PNone))
    browser_quit.

(** *** The reads of [scrapper], as answers of a page *)

Definition and_then {A B} (r : result A) (k : A -> result B) : result B :=
  match r with
  | Returned a => k a
  | Raised e => Raised e
  end.

(** [get_attribute name] over a list of elements, in order, up to the
    first call that raises. *)
Fixpoint attributes (name : string) (es : list WebElement)
  : result (list (option string)) :=
  match es with
  | [] => Returned []
  | e :: es' =>
      and_then (get_attribute e name) (fun a =>
      and_then (attributes name es') (fun r => Returned (a :: r)))
  end.

Definition title_element (p : Page) : result WebElement :=
  wait_presence p 10 CLASS_NAME title_class.

(** The image elements of the carousel container. *)
Definition carousel_images (p : Page) : result (list WebElement) :=
  and_then (find_element p CSS_SELECTOR carousel_css)
           (fun c => find_elements c CSS_SELECTOR image_css).

Definition carousel_read (p : Page) : result (list (option string)) :=
  and_then (carousel_images p) (attributes "data-zoom-src").

Definition price_read (p : Page) : result string :=
  and_then (find_element p CSS_SELECTOR price_css) text.

Definition seller_read (p : Page) : result (option string) :=
  and_then (find_element p CLASS_NAME seller_class)
           (fun e => get_attribute e "title").

Definition shipping_read (p : Page) : result string :=
  and_then (find_element p CSS_SELECTOR shipping_css) text.

(** The dictionary [scrapper] builds once the title element is there. *)
Definition product_record (url : string) (p : Page) (name_ele : WebElement)
  : result PyObj :=
  and_then (text name_ele) (fun name =>
  and_then (carousel_read p) (fun path_img =>
  and_then (price_read p) (fun price =>
  and_then (seller_read p) (fun seller =>
  and_then (shipping_read p) (fun shipping_cost =>
  Returned (PDict [("name", PStr name);
                   ("path_img", PList (of_attribute <$> path_img));
                   ("current_url", PStr url);
                   ("price", PStr price);
                   ("seller", of_attribute seller);
                   ("shipping_cost", PStr shipping_cost)])))))).

(** A read that returns, and a read that finds its element missing. *)
Definition present {A} (r : result A) : Prop := exists a, r = Returned a.

Definition absent {A} (r : result A) : Prop :=
  exists e, r = Raised e /\ exc_class e = NoSuchElementException.

(** The wait for the title ran out. *)
Definition timed_out {A} (r : result A) : Prop :=
  exists e, r = Raised e /\ exc_class e = TimeoutException.

(** One of the four reads after the title finds its element missing, the
    reads before it having returned. *)
Definition some_field_absent (p : Page) : Prop :=
  absent (carousel_read p)
  \/ (present (carousel_read p) /\ absent (price_read p))
  \/ (present (carousel_read p) /\ present (price_read p)
      /\ absent (seller_read p))
  \/ (present (carousel_read p) /\ present (price_read p)
      /\ present (seller_read p) /\ absent (shipping_read p)).

(** *** Sample pages *)

Definition TEST_URL : string := "https://www.ebay.com/itm/404265004322".

(** An element with a text and a [title] attribute and nothing below it. *)
Definition leaf (txt : string) (title : option string) : WebElement :=
  Element (Returned txt)
          (fun name => Returned (if decide (name = "title") then title else None))
          (fun _ _ => Returned []).

(** A carousel image with its [data-zoom-src]. *)
Definition image (zoom : option string) : WebElement :=
  Element (Returned "")
          (fun name => Returned (if decide (name = "data-zoom-src") then zoom else None))
          (fun _ _ => Returned []).

Definition container (children : list WebElement) : WebElement :=
  Element (Returned "") (fun _ => Returned None)
          (fun _ value => Returned (if decide (value = image_css) then children else [])).

(** A product page with every field, two images in its carousel. *)
Definition sample_page : Page :=
  {| load := Returned tt;
     wait_presence := fun _ _ value =>
       if decide (value = title_class) then Returned (leaf "Vintage lamp" None)
       else Raised (mkExc TimeoutException ("Message: " +:+ newline));
     find_element := fun _ value =>
       if decide (value = carousel_css)
       then Returned (container [image (Some "https://i.ebayimg.com/1.jpg");
                                 image (Some "https://i.ebayimg.com/2.jpg")])
       else if decide (value = price_css) then Returned (leaf "US $25.00" None)
       else if decide (value = seller_class) then Returned (leaf "" (Some "lamps4u"))
       else if decide (value = shipping_css) then Returned (leaf "US $5.00" None)
       else Raised no_such_element |}.

(** The same page without its price. *)
Definition page_without_price : Page :=
  {| load := Returned tt;
     wait_presence := wait_presence sample_page;
     find_element := fun by_ value =>
       if decide (value = price_css) then Raised no_such_element
       else find_element sample_page by_ value |}.

(** A page the browser cannot load. *)
Definition net_error : Exception :=
  mkExc (OtherException "WebDriverException")
        "Message: unknown error: net::ERR_NAME_NOT_RESOLVED".

Definition unreachable_page : Page :=
  {| load := Raised net_error;
     wait_presence := wait_presence blank_page;
     find_element := find_element blank_page |}.

(** A record as [scrapper] builds it, and one whose name is a [bytes]
    object, which the encoder has no rule for. *)
Definition sample_record : PyObj :=
  PDict [("name", PStr "Vintage lamp");
         ("path_img", PList [PStr "https://i.ebayimg.com/1.jpg";
                             PStr "https://i.ebayimg.com/2.jpg"]);
         ("current_url", PStr TEST_URL);
         ("price", PStr "US $25.00");
         ("seller", PStr "lamps4u");
         ("shipping_cost", PStr "US $5.00")].

Definition record_with_bytes : PyObj :=
  PDict [("name", POther "bytes");
         ("path_img", PList []);
         ("current_url", PStr TEST_URL);
         ("price", PStr "US $25.00");
         ("seller", PStr "lamps4u");
         ("shipping_cost", PStr "US $5.00")].

Definition not_serializable : Exception :=
  mkExc TypeError "Object of type bytes is not JSON serializable".

(** A [float.__repr__] for the samples, which hold no float. *)
Definition sample_float_repr (f : float) : string := "0.0".

(** *** The script *)

(** [bool(obj)], the test of [if result:].  An object of another type
    counts as true, as an instance of a class with neither [__bool__] nor
    [__len__] does; [scrapper] returns none. *)
Definition is_true (o : PyObj) : bool :=
  match o with
  | PNone => false
  | PBool b => b
  | PInt n => negb (n =? 0)%Z
  | PFloat f => negb (PrimFloat.eqb f 0%float)
  | PStr s => negb (String.eqb s "")
  | PList items => negb (Nat.eqb (length items) 0)
  | PDict entries => negb (Nat.eqb (length entries) 0)
  | POther _ => true
  end.

(** The lines under [if __name__ == "__main__":], run on the [EBay]
    object of the world. *)
Definition main (float_repr : float -> string) : Py unit :=
  result ← scrapper TEST_URL;
  if is_true result then
    write_to_console float_repr result;;
    write_to_file float_repr result
  else mret tt.

(** The world [scrapper url] leaves once the page is loaded: the browser
    is quit on that page and [lines] have gone to the console. *)
Definition scraped (url : string) (lines : list string) (w : World) : World :=
  {| web := web w; session_open := false; current_page := web w url;
     quit_calls := S (quit_calls w); stdout := stdout w ++ lines;
     files := files w |}.

(** The line the outer handler of [scrapper] prints for [ex]. *)
Definition not_found_line (ex : Exception) : string :=
  "NoSuchElementException: " +:+ exc_str ex.

(** A page whose price element has gone stale: reading its text raises an
    exception that is no [NoSuchElementException]. *)
Definition stale : Exception :=
  mkExc (OtherException "StaleElementReferenceException")
        "Message: stale element reference".

Definition page_with_stale_price : Page :=
  {| load := Returned tt;
     wait_presence := wait_presence sample_page;
     find_element := fun by_ value =>
       if decide (value = price_css)
       then Returned (Element (Raised stale) (fun _ => Returned None)
                              (fun _ _ => Returned []))
       else find_element sample_page by_ value |}.

End EBay.

(** ** restcountries.py *)
Module RestCountries.

(** *** Values *)

(** What [response.json()] can give, and what the request parameters
    hold. *)
Inductive Json :=
| JNull
| JBool (b : bool)
| JInt (n : Z)
| JFloat (f : float)
| JStr (s : string)
| JList (items : list Json)
| JDict (entries : list (string * Json)).

(** [bool(v)], the test of [if res:]. *)
Definition truthy (v : Json) : bool :=
  match v with
  | JNull => false
  | JBool b => b
  | JInt n => negb (n =? 0)%Z
  | JFloat f => negb (PrimFloat.eqb f 0%float)
  | JStr s => negb (String.eqb s "")
  | JList items => negb (Nat.eqb (length items) 0)
  | JDict entries => negb (Nat.eqb (length entries) 0)
  end.

Definition type_error (msg : string) : Exception := mkExc TypeError msg.
Definition key_error (key : string) : Exception :=
  mkExc KeyError ("'" +:+ key +:+ "'").

(** [v[key]] for a string [key]: only a [dict] answers. *)
Definition subscript (v : Json) (key : string) : result Json :=
  match v with
  | JDict d =>
      match dict_get key d with
      | Some x => Returned x
      | None => Raised (key_error key)
      end
  | JStr _ => Raised (type_error "string indices must be integers")
  | JList _ => Raised (type_error "list indices must be integers or slices, not str")
  | _ => Raised (type_error "object is not subscriptable")
  end.

(** [len(v)] *)
Definition len (v : Json) : result nat :=
  match v with
  | JList items => Returned (length items)
  | JStr s => Returned (String.length s)
  | JDict d => Returned (length d)
  | _ => Raised (type_error "object has no len()")
  end.

(** [v[0]]: the first member of a list, the first character of a string;
    a [dict] whose keys are strings has no key [0]. *)
Definition first (v : Json) : result Json :=
  match v with
  | JList (x :: _) => Returned x
  | JList [] => Raised (mkExc (OtherException "IndexError") "list index out of range")
  | JStr (String c _) => Returned (JStr (String c EmptyString))
  | JStr EmptyString => Raised (mkExc (OtherException "IndexError") "string index out of range")
  | JDict _ => Raised (mkExc KeyError "0")
  | _ => Raised (type_error "object is not subscriptable")
  end.

(** The values [for x in v] goes through: the members of a list, the keys
    of a [dict], the characters of a string. *)
Fixpoint characters (s : string) : list Json :=
  match s with
  | EmptyString => []
  | String c s' => JStr (String c EmptyString) :: characters s'
  end.

Definition iterate (v : Json) : result (list Json) :=
  match v with
  | JList items => Returned items
  | JDict d => Returned ((fun kv => JStr (fst kv)) <$> d)
  | JStr s => Returned (characters s)
  | _ => Raised (type_error "object is not iterable")
  end.

(** *** The loop body of [_print_table]

    The body works on one object, [country], and changes it in place: it
    is a computation whose state is that object. *)

(** [country[key]] *)
Definition getitem (key : string) : M Json Json :=
  fun country => (subscript country key, country).

(** [country[key] = v] *)
Definition setitem (key : string) (v : Json) : M Json unit :=
  fun country =>
    match country with
    | JDict d => (Returned tt, JDict (dict_set key v d))
    | _ => (Raised (type_error "object does not support item assignment"), country)
    end.

(** [country["name"] = country["name"]["common"]] *)
Definition flatten_name : M Json unit :=
  name ← getitem "name";
  common ← lift (subscript name "common");
  setitem "name" common.

(** [if len(country["capital"]) == 0: country["capital"] = "None"]
    [elif len(country["capital"]) == 1: country["capital"] = country["capital"][0]] *)
Definition flatten_capital : M Json unit :=
  capital ← getitem "capital";
  n ← lift (len capital);
  if Nat.eqb n 0 then setitem "capital" (JStr "None")
  else
    capital ← getitem "capital";
    n ← lift (len capital);
    if Nat.eqb n 1 then
      capital ← getitem "capital";
      sole ← lift (first capital);
      setitem "capital" sole
    else mret tt.

(** [country["flags"] = country["flags"]["png"]] *)
Definition flatten_flags : M Json unit :=
  flags ← getitem "flags";
  png ← lift (subscript flags "png");
  setitem "flags" png.

Definition flatten_country : M Json unit :=
  flatten_name;; flatten_capital;; flatten_flags.

(** *** The world: objects, the class, its instances, the network *)

Definition loc := positive.
Definition iid := positive.

Record Request := { req_url : string; req_params : Json }.

(** The body of a response read as JSON, or the text of the decoder's
    error. *)
Inductive Decoded :=
| Decodes (v : Json)
| Undecodable (msg : string).

Record Response := { status_code : Z; text : string; json : Decoded }.

(** What [print] wrote: a line of text, or the text [df.to_string] gives
    for a frame with these column labels and rows. *)
Inductive Output :=
| Line (s : string)
| Frame (header : list string) (rows : list (list Json)).

(** The objects the script changes or hands over by reference live in
    [heap].  [class_attrs] is the namespace of the class [RestCountries]
    and [instances] holds the namespace of each of its instances, both for
    the attributes that are bound to such an object.  [server] answers a
    GET, given the requests made before it, with a response or with an
    exception of the transport; [requests] is the list of the GETs made so
    far, each with the parameters as they were when it was sent. *)
Record World := {
  heap : gmap loc Json;
  class_attrs : gmap string loc;
  instances : gmap iid (gmap string loc);
  server : list Request -> Request -> result Response;
  requests : list Request;
  stdout : list Output
}.

Abbreviation Py := (M World).

Definition set_heap (h : gmap loc Json) (w : World) : World :=
  {| heap := h; class_attrs := class_attrs w; instances := instances w;
     server := server w; requests := requests w; stdout := stdout w |}.

Definition emit (o : Output) : Py unit :=
  fun w => (Returned tt,
            {| heap := heap w; class_attrs := class_attrs w;
               instances := instances w; server := server w;
               requests := requests w; stdout := stdout w ++ [o] |}).

Definition print (s : string) : Py unit := emit (Line s).

(** A reference is followed to its object. *)
Definition deref (l : loc) : Py Json :=
  fun w => match heap w !! l with
           | Some v => (Returned v, w)
           | None => (Raised (mkExc (OtherException "SystemError") "no such object"), w)
           end.

(** A new object. *)
Definition alloc (v : Json) : Py loc :=
  fun w => let l := fresh (dom (heap w)) in
           (Returned l, set_heap (<[l := v]> (heap w)) w).

(** [obj[key] = v] on the object at [l]. *)
Definition obj_setitem (l : loc) (key : string) (v : Json) : Py unit :=
  fun w => match heap w !! l with
           | Some obj =>
               match setitem key v obj with
               | (r, obj') => (r, set_heap (<[l := obj']> (heap w)) w)
               end
           | None => (Raised (mkExc (OtherException "SystemError") "no such object"), w)
           end.

(** [self.name] for an attribute bound to an object: the namespace of the
    instance first, then that of the class. *)
Definition getattr (self : iid) (name : string) : Py loc :=
  fun w => match instances w !! self with
           | Some attrs =>
               match attrs !! name with
               | Some l => (Returned l, w)
               | None =>
                   match class_attrs w !! name with
                   | Some l => (Returned l, w)
                   | None => (Raised (mkExc (OtherException "AttributeError") name), w)
                   end
               end
           | None => (Raised (mkExc (OtherException "SystemError") "no such object"), w)
           end.

(** [RestCountries()]: the class has no [__init__]; the new instance has
    an empty namespace. *)
Definition new : Py iid :=
  fun w => let i := fresh (dom (instances w)) in
           (Returned i,
            {| heap := heap w; class_attrs := class_attrs w;
               instances := <[i := ∅]> (instances w); server := server w;
               requests := requests w; stdout := stdout w |}).

(** A GET goes out: it is recorded and the server answers it. *)
Definition send (req : Request) : Py Response :=
  fun w => (server w (requests w) req,
            {| heap := heap w; class_attrs := class_attrs w;
               instances := instances w; server := server w;
               requests := requests w ++ [req]; stdout := stdout w |}).

(** [requests.get(url, params=params)]: the parameters are read off the
    object as it is now. *)
Definition requests_get (url : string) (params : loc) : Py Response :=
  p ← deref params;
  send {| req_url := url; req_params := p |}.

(** [response.json()]: a new object, or [JSONDecodeError]. *)
Definition response_json (response : Response) : Py loc :=
  match json response with
  | Decodes v => alloc v
  | Undecodable msg => raise (mkExc JSONDecodeError msg)
  end.

(** *** The class [RestCountries] *)

Definition _main_url : string := "https://restcountries.com/v3.1".

(** The object the class attribute [_fields] is bound to when the module
    is loaded. *)
Definition _fields : Json :=
  JDict [("fields", JList [JStr "name"; JStr "capital"; JStr "flags"])].

Definition fields_loc : loc := 1%positive.

(** The world after [import restcountries]. *)
Definition init_world (srv : list Request -> Request -> result Response) : World :=
  {| heap := {[fields_loc := _fields]};
     class_attrs := {["_fields" := fields_loc]};
     instances := ∅; server := srv; requests := []; stdout := [] |}.

(** [pd.DataFrame(data)[columns]]: a column that no record has is a
    [KeyError]; a record without a column that others have shows [NaN]. *)
Definition has_column (records : list Json) (column : string) : bool :=
  existsb (fun r => match r with
                    | JDict d => bool_decide (is_Some (dict_get column d))
                    | _ => false
                    end) records.

Definition cell (record : Json) (column : string) : Json :=
  match record with
  | JDict d => default (JFloat nan) (dict_get column d)
  | _ => JFloat nan
  end.

Definition select_columns (records : list Json) (columns : list string)
  : result (list (list Json)) :=
  if forallb (has_column records) columns
  then Returned ((fun r => cell r <$> columns) <$> records)
  else Raised (mkExc KeyError "not in index").

(** [pd.DataFrame(data)], for the objects the loop lets through: the
    records of a list; a frame with no column for an empty [dict]. *)
Definition data_frame (obj : Json) : result (list Json) :=
  match obj with
  | JList items => Returned items
  | JDict [] => Returned []
  | _ => Raised (mkExc ValueError "DataFrame constructor not properly called!")
  end.

(** The write of the loop variable's object back into the list at [data];
    what iterates over keys or characters has nothing to write to. *)
Definition store_item (data : loc) (i : nat) (item : Json) : Py unit :=
  fun w => match heap w !! data with
           | Some (JList items) =>
               (Returned tt, set_heap (<[data := JList (<[i := item]> items)]> (heap w)) w)
           | _ => (Returned tt, w)
           end.

(** [for country in data: ...], from position [i] on. *)
Fixpoint flatten_from (data : loc) (i : nat) (items : list Json) : Py unit :=
  match items with
  | [] => mret tt
  | country :: rest =>
      match flatten_country country with
      | (r, country') =>
          store_item data i country';;
          lift r;;
          flatten_from data (S i) rest
      end
  end.

Definition _print_table (self : iid) (data : loc) : Py unit :=
  obj ← deref data;
  items ← lift (iterate obj);
  flatten_from data 0 items;;
  obj ← deref data;
  records ← lift (data_frame obj);
  rows ← lift (select_columns records ["name"; "capital"; "flags"]);
  emit (Frame ["Name"; "Capital city"; "Flag"] rows);;
  print newline.

Definition _get_request (self : iid) (url : string) (params : option loc)
  : Py (option loc) :=
  response ← match params with
             | None => fields ← getattr self "_fields"; requests_get url fields
             | Some p => requests_get url p
             end;
  if (status_code response =? 200)%Z then
    try_except
      (result ← response_json response; mret (Some result))
      JSONDecodeError
      (fun ex => print ("JSONDecodeError (get_all): " +:+ exc_str ex);; mret None)
  else
    print ("Error response url: " +:+ url +:+ ": " +:+ text response);;
    mret None.

(** [if res:] for what [_get_request] returned. *)
Definition is_true (res : option loc) : Py bool :=
  match res with
  | None => mret false
  | Some l => v ← deref l; mret (truthy v)
  end.

(** The common end of the entry points:
    [if res: self._print_table(res); return True / return False]. *)
Definition show (self : iid) (res : option loc) : Py bool :=
  t ← is_true res;
  match t, res with
  | true, Some l => _print_table self l;; mret true
  | _, _ => mret false
  end.

Definition get_all (self : iid) : Py bool :=
  let url := join "/" [_main_url; "all"] in
  res ← _get_request self url None;
  show self res.

Definition get_by_name (self : iid) (name : string) : Py bool :=
  let url := join "/" [_main_url; "name"; name] in
  res ← _get_request self url None;
  show self res.

Definition get_by_fullname (self : iid) (fullname : string) : Py bool :=
  let url := join "/" [_main_url; "name"; fullname] in
  fields ← getattr self "_fields";
  obj_setitem fields "fullText" (JStr "true");;
  fields ← getattr self "_fields";
  res ← _get_request self url (Some fields);
  show self res.

(** A country code, an [int] or a [str]. *)
Inductive Code :=
| IntCode (n : Z)
| StrCode (s : string).

Definition code_json (c : Code) : Json :=
  match c with
  | IntCode n => JInt n
  | StrCode s => JStr s
  end.

(** The end of [get_by_code]: a result that is no list is rendered as a
    list of one.  (The new list holds the object itself; the copy made here
    cannot be told from it, as [res] is not used again.) *)
Definition show_one (self : iid) (res : option loc) : Py bool :=
  t ← is_true res;
  match t, res with
  | true, Some l =>
      v ← deref l;
      match v with
      | JList _ => _print_table self l
      | _ => wrapped ← alloc (JList [v]); _print_table self wrapped
      end;;
      mret true
  | _, _ => mret false
  end.

Definition get_by_code (self : iid) (code : Code) : Py bool :=
  let code := match code with
              | IntCode n => pretty n
              | StrCode s => s
              end in
  let url := join "/" [_main_url; "alpha"; code] in
  res ← _get_request self url None;
  show_one self res.

Definition get_by_listcodes (self : iid) (code : list Code) : Py bool :=
  let url := join "/" [_main_url; "alpha"] in
  fields ← getattr self "_fields";
  obj_setitem fields "codes" (JList (code_json <$> code));;
  fields ← getattr self "_fields";
  res ← _get_request self url (Some fields);
  show self res.

Definition get_by_currency (self : iid) (code : string) : Py bool :=
  let url := join "/" [_main_url; "currency"; code] in
  res ← _get_request self url None;
  show self res.

Definition get_by_demonym (self : iid) (demonym : string) : Py bool :=
  let url := join "/" [_main_url; "demonym"; demonym] in
  res ← _get_request self url None;
  show self res.

Definition get_by_lang (self : iid) (lang : string) : Py bool :=
  let url := join "/" [_main_url; "lang"; lang] in
  res ← _get_request self url None;
  show self res.

Definition get_by_capital (self : iid) (capital : string) : Py bool :=
  let url := join "/" [_main_url; "capital"; capital] in
  res ← _get_request self url None;
  show self res.

Definition get_by_region (self : iid) (region : string) : Py bool :=
  let url := join "/" [_main_url; "region"; region] in
  res ← _get_request self url None;
  show self res.

Definition get_by_subregion (self : iid) (subregion : string) : Py bool :=
  let url := join "/" [_main_url; "subregion"; subregion] in
  res ← _get_request self url None;
  show self res.

Definition get_by_translation (self : iid) (translation : string) : Py bool :=
  let url := join "/" [_main_url; "translation"; translation] in
  res ← _get_request self url None;
  show self res.

(** The entry points, as one type of calls. *)
Inductive Call :=
| All
| ByName (name : string)
| ByFullname (fullname : string)
| ByCode (code : Code)
| ByListcodes (code : list Code)
| ByCurrency (code : string)
| ByDemonym (demonym : string)
| ByLang (lang : string)
| ByCapital (capital : string)
| ByRegion (region : string)
| BySubregion (subregion : string)
| ByTranslation (translation : string).

Definition invoke (self : iid) (c : Call) : Py bool :=
  match c with
  | All => get_all self
  | ByName name => get_by_name self name
  | ByFullname fullname => get_by_fullname self fullname
  | ByCode code => get_by_code self code
  | ByListcodes code => get_by_listcodes self code
  | ByCurrency code => get_by_currency self code
  | ByDemonym demonym => get_by_demonym self demonym
  | ByLang lang => get_by_lang self lang
  | ByCapital capital => get_by_capital self capital
  | ByRegion region => get_by_region self region
  | BySubregion subregion => get_by_subregion self subregion
  | ByTranslation translation => get_by_translation self translation
  end.

(** What a caller does next: it makes an instance or calls an entry point
    of one; it goes on after an exception as after a return. *)
Inductive Action :=
| New
| Invoke (self : iid) (c : Call).

Definition step (w : World) (a : Action) : World :=
  match a with
  | New => snd (new w)
  | Invoke self c => snd (invoke self c w)
  end.

Definition run (prog : list Action) (w : World) : World :=
  fold_left step prog w.

(** *** Reading the world *)

(** The dictionary the class attribute [_fields] is bound to. *)
Definition fields_of (w : World) : option (list (string * Json)) :=
  match class_attrs w !! "_fields" with
  | Some l =>
      match heap w !! l with
      | Some (JDict d) => Some d
      | _ => None
      end
  | None => None
  end.

(** [self] is an instance with no [_fields] of its own. *)
Definition plain_instance (w : World) (self : iid) : Prop :=
  exists attrs, instances w !! self = Some attrs /\ attrs !! "_fields" = None.

(** The class attribute is bound to a dictionary and no instance hides
    it; so things are after [import] and after [RestCountries()]. *)
Definition class_state (w : World) : Prop :=
  is_Some (fields_of w)
  /\ forall i attrs, instances w !! i = Some attrs -> attrs !! "_fields" = None.

(** The URL and the parameters of the GET a call sends, [fields] being the
    dictionary of [_fields] when the call starts. *)
Definition call_url (c : Call) : string :=
  match c with
  | All => join "/" [_main_url; "all"]
  | ByName name => join "/" [_main_url; "name"; name]
  | ByFullname fullname => join "/" [_main_url; "name"; fullname]
  | ByCode (IntCode n) => join "/" [_main_url; "alpha"; pretty n]
  | ByCode (StrCode s) => join "/" [_main_url; "alpha"; s]
  | ByListcodes _ => join "/" [_main_url; "alpha"]
  | ByCurrency code => join "/" [_main_url; "currency"; code]
  | ByDemonym demonym => join "/" [_main_url; "demonym"; demonym]
  | ByLang lang => join "/" [_main_url; "lang"; lang]
  | ByCapital capital => join "/" [_main_url; "capital"; capital]
  | ByRegion region => join "/" [_main_url; "region"; region]
  | BySubregion subregion => join "/" [_main_url; "subregion"; subregion]
  | ByTranslation translation => join "/" [_main_url; "translation"; translation]
  end.

Definition call_fields (c : Call) (fields : list (string * Json))
  : list (string * Json) :=
  match c with
  | ByFullname _ => dict_set "fullText" (JStr "true") fields
  | ByListcodes code => dict_set "codes" (JList (code_json <$> code)) fields
  | _ => fields
  end.

Definition call_request (c : Call) (fields : list (string * Json)) : Request :=
  {| req_url := call_url c; req_params := JDict (call_fields c fields) |}.

(** The value of a parameter of a request. *)
Definition param (req : Request) (key : string) : option Json :=
  match req_params req with
  | JDict d => dict_get key d
  | _ => None
  end.

(** *** Records the loop body goes through *)

(** What the body leaves of a capital: ["None"] for an empty list, the
    member of a list of one, the list itself when it has more. *)
Definition collapse (capital : list Json) : Json :=
  match capital with
  | [] => JStr "None"
  | [sole] => sole
  | _ => JList capital
  end.

(** The values of [capital] the body gets through: what has a length,
    and a first member when the length is one. *)
Definition capital_ok (capital : Json) : bool :=
  match capital with
  | JList _ => true
  | JStr _ => true
  | JDict d => negb (Nat.eqb (length d) 1)
  | _ => false
  end.

(** The records the body gets through: a [dict] with a [name] holding
    [common], a [capital], and [flags] holding [png]. *)
Definition well_formed_country (r : Json) : bool :=
  match r with
  | JDict d =>
      match dict_get "name" d, dict_get "capital" d, dict_get "flags" d with
      | Some (JDict names), Some capital, Some (JDict flags) =>
          bool_decide (is_Some (dict_get "common" names))
          && capital_ok capital
          && bool_decide (is_Some (dict_get "png" flags))
      | _, _, _ => false
      end
  | _ => false
  end.

(** The object after the body ran on it. *)
Definition flattened (r : Json) : Json := snd (flatten_country r).

(** The loop over a list, as a function of its members: it stops at the
    first member the body raises on, which stays as the body left it. *)
Fixpoint flatten_all (items : list Json) : result unit * list Json :=
  match items with
  | [] => (Returned tt, [])
  | country :: rest =>
      match flatten_country country with
      | (Returned _, country') =>
          match flatten_all rest with
          | (r, rest') => (r, country' :: rest')
          end
      | (Raised e, country') => (Raised e, country' :: rest)
      end
  end.

(** The values [_print_table] renders: a list that is not empty, of
    records the body gets through. *)
Definition renders (v : Json) : bool :=
  match v with
  | JList (r :: rs) => forallb well_formed_country (r :: rs)
  | _ => false
  end.


(** The number of rows of the table. *)
Definition row_count (v : Json) : nat :=
  match v with
  | JList items => length items
  | _ => 1
  end.

(** A record with the three columns of the table. *)
Definition has_columns (r : Json) : Prop :=
  exists d, r = JDict d /\ is_Some (dict_get "name" d)
            /\ is_Some (dict_get "capital" d) /\ is_Some (dict_get "flags" d).

(** The world with one more request sent, or more on its console. *)
Definition with_request (req : Request) (w : World) : World :=
  {| heap := heap w; class_attrs := class_attrs w; instances := instances w;
     server := server w; requests := requests w ++ [req]; stdout := stdout w |}.

Definition with_output (out : list Output) (w : World) : World :=
  {| heap := heap w; class_attrs := class_attrs w; instances := instances w;
     server := server w; requests := requests w; stdout := stdout w ++ out |}.

(** What [print("\n")] wrote. *)
Definition blank_line : Output := Line newline.

Definition table_header : list string := ["Name"; "Capital city"; "Flag"].
Definition table_columns : list string := ["name"; "capital"; "flags"].

(** What a call leaves of the world [w] it started in, as far as the
    class goes: the namespaces and the server are as they were, the
    objects that were there are there, [mine] apart, and the console has
    grown. *)
Definition keeps (mine : loc) (w w' : World) : Prop :=
  class_attrs w' = class_attrs w
  /\ instances w' = instances w
  /\ server w' = server w
  /\ (forall l v, l <> mine -> heap w !! l = Some v -> heap w' !! l = Some v)
  /\ exists out, stdout w' = stdout w ++ out.

(** The results [show_one] renders, and those each entry point renders:
    [get_by_code] takes one record for a list of one. *)
Definition renders_one (v : Json) : bool :=
  match v with
  | JList _ => renders v
  | _ => truthy v && well_formed_country v
  end.

Definition renders_for (c : Call) (v : Json) : bool :=
  match c with
  | ByCode _ => renders_one v
  | _ => renders v
  end.

(** What an entry point returns and prints, [ans] being the answer to its
    GET and [ok] telling the results its end renders. *)
Definition verdict (ok : Json -> bool) (url : string) (ans : result Response)
    (r : result bool) (out : list Output) : Prop :=
  match ans with
  | Raised e => r = Raised e /\ out = []
  | Returned response =>
      if (status_code response =? 200)%Z then
        match json response with
        | Undecodable msg =>
            r = Returned false
            /\ out = [Line ("JSONDecodeError (get_all): " +:+ msg)]
        | Decodes v =>
            if ok v then
              r = Returned true
              /\ exists rows, out = [Frame table_header rows; blank_line]
                              /\ length rows = row_count v
            else if truthy v then (exists e, r = Raised e) /\ out = []
            else r = Returned false /\ out = []
        end
      else
        r = Returned false
        /\ out = [Line ("Error response url: " +:+ url +:+ ": " +:+ text response)]
  end.

(** Where [_get_request] finds its parameters: at [p], handed over or
    reached through [self._fields]. *)
Definition params_at (self : iid) (params : option loc) (p : loc) (w : World) : Prop :=
  params = Some p
  \/ (params = None /\ plain_instance w self /\ class_attrs w !! "_fields" = Some p).

(** What the end of an entry point does with a result [v] at [l]: it
    renders it and returns [True], or it raises, or it returns [False];
    [ok] tells the results it renders. *)
Definition finishes (ok : Json -> bool) (finish : iid -> option loc -> Py bool)
  : Prop :=
  (forall self w, finish self None w = (Returned false, w))
  /\ forall self l v w,
      heap w !! l = Some v ->
      keeps l w (snd (finish self (Some l) w))
      /\ requests (snd (finish self (Some l) w)) = requests w
      /\ exists out,
          stdout (snd (finish self (Some l) w)) = stdout w ++ out
          /\ if ok v then
               fst (finish self (Some l) w) = Returned true
               /\ exists rows, out = [Frame table_header rows; blank_line]
                               /\ length rows = row_count v
             else if truthy v then
               (exists e, fst (finish self (Some l) w) = Raised e) /\ out = []
             else fst (finish self (Some l) w) = Returned false /\ out = [].

(** A record of the API: a [name] object holding [common], a [capital]
    list, a [flags] object holding [png]. *)
Definition country_record (r common : Json) (capital : list Json) (png : Json)
  : Prop :=
  exists d names flags,
    r = JDict d
    /\ dict_get "name" d = Some (JDict names)
    /\ dict_get "common" names = Some common
    /\ dict_get "capital" d = Some (JList capital)
    /\ dict_get "flags" d = Some (JDict flags)
    /\ dict_get "png" flags = Some png.

(** The record as the table shows it. *)
Definition displayed (r common : Json) (capital : list Json) (png : Json)
  : Prop :=
  exists d,
    r = JDict d
    /\ dict_get "name" d = Some common
    /\ dict_get "capital" d = Some (collapse capital)
    /\ dict_get "flags" d = Some png.

(** The answer of the server to the GET of a call made in [w]. *)
Definition answer (w : World) (c : Call) (fields : list (string * Json))
  : result Response :=
  server w (requests w) (call_request c fields).

(** The dictionary of [_fields] has the key. *)
Definition leaked (key : string) (w : World) : Prop :=
  exists d, fields_of w = Some d /\ is_Some (dict_get key d).

(** The class is in order and the dictionary of [_fields] has the
    property [Q]. *)
Definition settled (Q : list (string * Json) -> Prop) (w : World) : Prop :=
  class_state w /\ exists d, fields_of w = Some d /\ Q d.

(** *** Sample data *)

Definition country (common official : string) (capital : list string) (png : string) : Json :=
  JDict [("flags", JDict [("png", JStr png); ("svg", JStr "")]);
         ("name", JDict [("common", JStr common); ("official", JStr official)]);
         ("capital", JList (JStr <$> capital))].

Definition estonia : Json :=
  country "Estonia" "Republic of Estonia" ["Tallinn"] "https://flagcdn.com/w320/ee.png".

Definition antarctica : Json :=
  country "Antarctica" "Antarctica" [] "https://flagcdn.com/w320/aq.png".

Definition south_africa : Json :=
  country "South Africa" "Republic of South Africa"
          ["Pretoria"; "Bloemfontein"; "Cape Town"] "https://flagcdn.com/w320/za.png".

(** A server that answers every GET with status 200 and the same body. *)
Definition always (body : Json) : list Request -> Request -> result Response :=
  fun _ _ => Returned {| status_code := 200; text := ""; json := Decodes body |}.

(** The world after [import] and one [RestCountries()]; the instance is
    [client]. *)
Definition client : iid := 1%positive.

Definition client_world (srv : list Request -> Request -> result Response) : World :=
  snd (new (init_world srv)).

(** A record that came without its capital. *)
Definition bouvet_island : Json :=
  JDict [("flags", JDict [("png", JStr "https://flagcdn.com/w320/bv.png")]);
         ("name", JDict [("common", JStr "Bouvet Island")])].

(** A list object with South Africa in it, at [sample_list]. *)
Definition sample_list : loc := 2%positive.

Definition world_with_list (records : list Json) : World :=
  set_heap (<[sample_list := JList records]> (heap (client_world (always JNull))))
           (client_world (always JNull)).

(** *** The script *)

(** The lines under [if __name__ == "__main__":]. *)
Definition main : Py unit :=
  country ← new;
  get_all country;;
  get_by_name country "deutschland";;
  get_by_fullname country "Germany";;
  get_by_code country (StrCode "col");;
  get_by_listcodes country [IntCode 170; StrCode "pe"];;
  get_by_currency country "cop";;
  get_by_demonym country "peruvian";;
  get_by_lang country "spanish";;
  get_by_capital country "tallinn";;
  get_by_region country "europe";;
  get_by_subregion country "Northern Europe";;
  get_by_translation country "germany";;
  mret tt.

(** The calls of the script. *)
Definition script : list Call :=
  [All; ByName "deutschland"; ByFullname "Germany"; ByCode (StrCode "col");
   ByListcodes [IntCode 170; StrCode "pe"]; ByCurrency "cop";
   ByDemonym "peruvian"; ByLang "spanish"; ByCapital "tallinn";
   ByRegion "europe"; BySubregion "Northern Europe"; ByTranslation "germany"].

(** Calls on one instance, one after the other, up to the first that
    raises. *)
Fixpoint invoke_all (self : iid) (calls : list Call) : Py unit :=
  match calls with
  | [] => mret tt
  | c :: rest => invoke self c;; invoke_all self rest
  end.

(** The GETs of a sequence of calls none of which raises, [fields] being
    the dictionary of [_fields] when it starts. *)
Fixpoint requests_of (fields : list (string * Json)) (calls : list Call)
  : list Request :=
  match calls with
  | [] => []
  | c :: rest => call_request c fields :: requests_of (call_fields c fields) rest
  end.

(** The actions that do not write [codes]: everything but a call of
    [get_by_listcodes]. *)
Definition is_listcodes (c : Call) : bool :=
  match c with
  | ByListcodes _ => true
  | _ => false
  end.

Definition leaves_codes (a : Action) : bool :=
  match a with
  | New => true
  | Invoke _ c => negb (is_listcodes c)
  end.

(** The GETs of the script, in order: the parameters as the class has
    them at first, with [fullText] from the third request on, and with
    [codes] as well from the fifth on. *)
Definition params_at_first : Json :=
  JDict [("fields", JList [JStr "name"; JStr "capital"; JStr "flags"])].

Definition params_after_fullname : Json :=
  JDict [("fields", JList [JStr "name"; JStr "capital"; JStr "flags"]);
         ("fullText", JStr "true")].

Definition params_after_listcodes : Json :=
  JDict [("fields", JList [JStr "name"; JStr "capital"; JStr "flags"]);
         ("fullText", JStr "true");
         ("codes", JList [JInt 170; JStr "pe"])].

Definition script_requests : list Request :=
  [ {| req_url := "https://restcountries.com/v3.1/all";
       req_params := params_at_first |};
    {| req_url := "https://restcountries.com/v3.1/name/deutschland";
       req_params := params_at_first |};
    {| req_url := "https://restcountries.com/v3.1/name/Germany";
       req_params := params_after_fullname |};
    {| req_url := "https://restcountries.com/v3.1/alpha/col";
       req_params := params_after_fullname |};
    {| req_url := "https://restcountries.com/v3.1/alpha";
       req_params := params_after_listcodes |};
    {| req_url := "https://restcountries.com/v3.1/currency/cop";
       req_params := params_after_listcodes |};
    {| req_url := "https://restcountries.com/v3.1/demonym/peruvian";
       req_params := params_after_listcodes |};
    {| req_url := "https://restcountries.com/v3.1/lang/spanish";
       req_params := params_after_listcodes |};
    {| req_url := "https://restcountries.com/v3.1/capital/tallinn";
       req_params := params_after_listcodes |};
    {| req_url := "https://restcountries.com/v3.1/region/europe";
       req_params := params_after_listcodes |};
    {| req_url := "https://restcountries.com/v3.1/subregion/Northern Europe";
       req_params := params_after_listcodes |};
    {| req_url := "https://restcountries.com/v3.1/translation/germany";
       req_params := params_after_listcodes |} ].

(** The entry points that send the default parameters. *)
Definition sends_defaults (c : Call) : bool :=
  match c with
  | ByFullname _ | ByListcodes _ => false
  | _ => true
  end.

(** A server that cannot be reached. *)
Definition connection_error : Exception :=
  mkExc (OtherException "ConnectionError") "Max retries exceeded with url".

Definition unreachable : list Request -> Request -> result Response :=
  fun _ _ => Raised connection_error.

(** A server that answers every GET with status 404 and a message. *)
Definition not_found : list Request -> Request -> result Response :=
  fun _ _ => Returned {| status_code := 404; text := "Not Found";
                         json := Decodes (JDict [("status", JInt 404);
                                                 ("message", JStr "Not Found")]) |}.

End RestCountries.

(** * Theorems *)

(** ** Facts about the monad *)
Module PythonFacts.

Lemma bind_returned {W A B} (m : M W A) (k : A -> M W B) w a w' :
  m w = (Returned a, w') -> (m ≫= k) w = k a w'.
Proof. intros H. unfold mbind, M_bind, bind. now rewrite H. Qed.

Lemma bind_raised {W A B} (m : M W A) (k : A -> M W B) w e w' :
  m w = (Raised e, w') -> (m ≫= k) w = (Raised e, w').
Proof. intros H. unfold mbind, M_bind, bind. now rewrite H. Qed.

Lemma try_except_returned {W A} (m : M W A) cls h w a w' :
  m w = (Returned a, w') -> try_except m cls h w = (Returned a, w').
Proof. intros H. unfold try_except. now rewrite H. Qed.

Lemma try_except_caught {W A} (m : M W A) cls h w e w' :
  m w = (Raised e, w') -> exc_class e = cls -> try_except m cls h w = h e w'.
Proof.
  intros H Hc. unfold try_except. rewrite H.
  destruct (decide (exc_class e = cls)); [reflexivity | contradiction].
Qed.

Lemma try_except_passed {W A} (m : M W A) cls h w e w' :
  m w = (Raised e, w') -> exc_class e <> cls ->
  try_except m cls h w = (Raised e, w').
Proof.
  intros H Hc. unfold try_except. rewrite H.
  destruct (decide (exc_class e = cls)); [contradiction | reflexivity].
Qed.

End PythonFacts.

(** ** Facts about ebay.py *)
Module EBayFacts.
Import EBay PythonFacts.

(** A stronger induction principle for [PyObj]: the hypotheses reach the
    members of a list and the values of a dictionary. *)
Section PyObj_induction.
Variable P : PyObj -> Prop.
Hypothesis HNone : P PNone.
Hypothesis HBool : forall b, P (PBool b).
Hypothesis HInt : forall n, P (PInt n).
Hypothesis HFloat : forall f, P (PFloat f).
Hypothesis HStr : forall s, P (PStr s).
Hypothesis HList : forall items, Forall P items -> P (PList items).
Hypothesis HDict : forall entries, Forall (fun kv => P (snd kv)) entries -> P (PDict entries).
Hypothesis HOther : forall ty, P (POther ty).

Fixpoint PyObj_nested_ind (o : PyObj) : P o :=
  match o with
  | PNone => HNone
  | PBool b => HBool b
  | PInt n => HInt n
  | PFloat f => HFloat f
  | PStr s => HStr s
  | PList items =>
      HList items
        ((fix all (l : list PyObj) : Forall P l :=
            match l with
            | [] => @List.Forall_nil _ P
            | x :: l' => @List.Forall_cons _ P x l' (PyObj_nested_ind x) (all l')
            end) items)
  | PDict entries =>
      HDict entries
        ((fix all (l : list (string * PyObj)) : Forall (fun kv => P (snd kv)) l :=
            match l with
            | [] => @List.Forall_nil _ _
            | kv :: l' =>
                @List.Forall_cons _ (fun kv => P (snd kv)) kv l'
                  (PyObj_nested_ind (snd kv)) (all l')
            end) entries)
  | POther ty => HOther ty
  end.
End PyObj_induction.

(** The encoder raises nothing but [TypeError]. *)
Lemma encode_raises_TypeError float_repr indent (o : PyObj) :
  forall level e, encode float_repr indent level o = Raised e -> exc_class e = TypeError.
Proof.
  induction o as [| b | n | f | s | items IH | entries IH | ty] using PyObj_nested_ind;
    intros level e; simpl; try discriminate.
  - destruct b; discriminate.
  - destruct items as [| x items']; [discriminate |].
    set (chunks := fix chunks (l : list PyObj) : result (list string) := _).
    assert (Hc : forall l, Forall (fun o => forall level e,
                     encode float_repr indent level o = Raised e ->
                     exc_class e = TypeError) l ->
                 forall e, chunks l = Raised e -> exc_class e = TypeError).
    { induction l as [| y l IHl]; intros Hall e'; simpl; [discriminate |].
      inversion Hall as [| ? ? Hy Hl]; subst.
      destruct (encode float_repr indent (S level) y) eqn:Ey.
      - destruct (chunks l) eqn:El; [discriminate |].
        intros [= <-]. now apply IHl.
      - intros [= <-]. eapply Hy, Ey. }
    specialize (Hc (x :: items') IH). simpl in Hc.
    destruct (encode float_repr indent (S level) x);
      [destruct (chunks items'); [discriminate |] |];
      intros [= <-]; now apply Hc.
  - destruct entries as [| kv entries']; [discriminate |].
    set (chunks := fix chunks (l : list (string * PyObj)) : result (list string) := _).
    assert (Hc : forall l, Forall (fun kv : string * PyObj => forall level e,
                     encode float_repr indent level (snd kv) = Raised e ->
                     exc_class e = TypeError) l ->
                 forall e, chunks l = Raised e -> exc_class e = TypeError).
    { induction l as [| [k y] l IHl]; intros Hall e'; simpl; [discriminate |].
      inversion Hall as [| ? ? Hy Hl]; subst. simpl in Hy.
      destruct (encode float_repr indent (S level) y) eqn:Ey.
      - destruct (chunks l) eqn:El; [discriminate |].
        intros [= <-]. now apply IHl.
      - intros [= <-]. eapply Hy, Ey. }
    specialize (Hc (kv :: entries') IH). destruct kv as [k x]. simpl in Hc.
    destruct (encode float_repr indent (S level) x);
      [destruct (chunks entries'); [discriminate |] |];
      intros [= <-]; now apply Hc.
  - intros [= <-]. reflexivity.
Qed.

Lemma json_dumps_never_JSONDecodeError float_repr indent o e :
  json_dumps float_repr indent o = Raised e -> exc_class e <> JSONDecodeError.
Proof.
  intros H. apply encode_raises_TypeError in H. rewrite H. discriminate.
Qed.

(** What [write_to_file] does when the encoder returns, and when it raises:
    in the second case the exception leaves the method, nothing is printed
    and the file stays cut to nothing. *)
Lemma write_to_file_serializable float_repr data s w :
  json_dumps float_repr 4 data = Returned s ->
  write_to_file float_repr data w
  = (Returned tt, set_files (<[path_file := s]> (files w)) w).
Proof.
  intros H. unfold write_to_file, with_open_w.
  erewrite try_except_returned; [reflexivity |].
  erewrite bind_returned by (unfold lift; rewrite H; reflexivity).
  unfold file_write, set_files; simpl.
  rewrite lookup_insert_eq, insert_insert_eq. reflexivity.
Qed.

Lemma write_to_file_unserializable float_repr data e w :
  json_dumps float_repr 4 data = Raised e ->
  write_to_file float_repr data w
  = (Raised e, set_files (<[path_file := ""]> (files w)) w).
Proof.
  intros H. unfold write_to_file, with_open_w.
  erewrite try_except_passed; [reflexivity | | ].
  - erewrite bind_raised; [reflexivity |]. unfold lift. now rewrite H.
  - eapply json_dumps_never_JSONDecodeError, H.
Qed.

Lemma write_to_console_unserializable float_repr data e w :
  json_dumps float_repr 4 data = Raised e ->
  write_to_console float_repr data w = (Raised e, w).
Proof.
  intros H. unfold write_to_console.
  erewrite try_except_passed; [reflexivity | | ].
  - erewrite bind_raised; [reflexivity |]. unfold lift. now rewrite H.
  - eapply json_dumps_never_JSONDecodeError, H.
Qed.

(** *** [scrapper] *)

Lemma driver_call_open {A} (answer : World -> result A) w :
  session_open w = true -> driver_call answer w = (answer w, w).
Proof. intros H. unfold driver_call. now rewrite H. Qed.

Lemma for_each_attributes name imgs w :
  session_open w = true ->
  for_each imgs (fun img => element_get_attribute img name) w
  = (attributes name imgs, w).
Proof.
  intros Hopen. induction imgs as [| img imgs IH]; simpl; [reflexivity |].
  unfold mbind, M_bind, bind in *. unfold element_get_attribute at 1.
  rewrite driver_call_open by assumption.
  destruct (get_attribute img name); simpl; [| reflexivity].
  rewrite IH. destruct (attributes name imgs); reflexivity.
Qed.

(** Once the title element is there, the rest of the [try] body reads the
    page and touches nothing. *)
Lemma scrape_fields_after_title url w name_ele :
  session_open w = true ->
  title_element (current_page w) = Returned name_ele ->
  scrape_fields url w = (product_record url (current_page w) name_ele, w).
Proof.
  intros Hopen Hwait. unfold scrape_fields.
  erewrite bind_returned; cycle 1.
  { eapply try_except_returned. unfold wait_until_presence.
    rewrite driver_call_open by assumption.
    unfold title_element in Hwait. rewrite Hwait. reflexivity. }
  unfold product_record, carousel_read, carousel_images, price_read,
    seller_read, shipping_read.
  unfold mbind, M_bind, bind, element_text, browser_find_element,
    element_find_elements.
  repeat (first
    [ rewrite for_each_attributes by assumption
    | rewrite driver_call_open by assumption
    | lazymatch goal with
      | |- context [for_each _ _] => fail
      | _ => progress unfold element_get_attribute
      end
    | match goal with
      | |- context [and_then ?r _] =>
          lazymatch r with
          | and_then _ _ => fail
          | _ => destruct r; simpl; [| reflexivity]
          end
      end ]).
  reflexivity.
Qed.

(** The worlds [scrapper] passes through. *)
Lemma browser_get_loaded url w u :
  session_open w = true -> load (web w url) = Returned u ->
  exists w1, browser_get url w = (Returned tt, w1)
             /\ session_open w1 = true /\ current_page w1 = web w url
             /\ quit_calls w1 = quit_calls w /\ stdout w1 = stdout w
             /\ files w1 = files w.
Proof.
  intros Hopen Hload. unfold browser_get. rewrite Hopen, Hload.
  eexists. split; [reflexivity |]. simpl. auto.
Qed.

(** Loading fails: the exception leaves [scrapper] before its [try], and
    the world is as it was. *)
Lemma scrapper_load_fails url w e :
  session_open w = true -> load (web w url) = Raised e ->
  scrapper url w = (Raised e, w).
Proof.
  intros Hopen Hload. unfold scrapper.
  erewrite bind_raised; [reflexivity |].
  unfold browser_get. now rewrite Hopen, Hload.
Qed.

(** The [try] body leaves the browser handle alone. *)
Lemma scrape_fields_handle url w :
  session_open w = true ->
  quit_calls (snd (scrape_fields url w)) = quit_calls w
  /\ session_open (snd (scrape_fields url w)) = true.
Proof.
  intros Hopen.
  destruct (title_element (current_page w)) as [name_ele | e] eqn:Hwait.
  - erewrite scrape_fields_after_title by eassumption. simpl. auto.
  - unfold scrape_fields, mbind, M_bind, bind, try_except, wait_until_presence.
    rewrite driver_call_open by assumption.
    unfold title_element in Hwait. rewrite Hwait.
    destruct (decide (exc_class e = TimeoutException)); simpl; auto.
Qed.

(** After a load that went through, [quit] is called once, whatever the
    [try] body ends in. *)
Lemma scrapper_quits_once url w u :
  session_open w = true -> load (web w url) = Returned u ->
  quit_calls (snd (scrapper url w)) = S (quit_calls w)
  /\ session_open (snd (scrapper url w)) = false.
Proof.
  intros Hopen Hload.
  destruct (browser_get_loaded url w u Hopen Hload)
    as (w1 & Hget & Hopen1 & _ & Hq1 & _).
  unfold scrapper. erewrite bind_returned by exact Hget.
  unfold try_finally, try_except.
  pose proof (scrape_fields_handle url w1 Hopen1) as [Hq Ho].
  destruct (scrape_fields url w1) as [[d | e] w2]; simpl in *.
  - split; [congruence | reflexivity].
  - destruct (decide (exc_class e = NoSuchElementException)); simpl;
      (split; [congruence | reflexivity]).
Qed.

(** What [scrapper] returns once the title element is there. *)
Lemma scrapper_title_found url w u name_ele :
  session_open w = true -> load (web w url) = Returned u ->
  title_element (web w url) = Returned name_ele ->
  fst (scrapper url w)
  = match product_record url (web w url) name_ele with
    | Returned d => Returned d
    | Raised e =>
        if decide (exc_class e = NoSuchElementException) then Returned PNone
        else Raised e
    end.
Proof.
  intros Hopen Hload Hwait.
  destruct (browser_get_loaded url w u Hopen Hload)
    as (w1 & Hget & Hopen1 & Hpage & _).
  unfold scrapper. erewrite bind_returned by exact Hget.
  unfold try_finally, try_except.
  rewrite (scrape_fields_after_title url w1 name_ele), Hpage
    by (rewrite ?Hpage; assumption).
  destruct (product_record url (web w url) name_ele) as [d | e]; simpl;
    [reflexivity |].
  destruct (decide (exc_class e = NoSuchElementException)); reflexivity.
Qed.

(** The wait for the title runs out, or ends in [NoSuchElementException]:
    [None] in both cases. *)
Lemma scrapper_no_title url w u :
  session_open w = true -> load (web w url) = Returned u ->
  timed_out (title_element (web w url)) \/ absent (title_element (web w url)) ->
  fst (scrapper url w) = Returned PNone.
Proof.
  intros Hopen Hload Hwait.
  destruct (browser_get_loaded url w u Hopen Hload)
    as (w1 & Hget & Hopen1 & Hpage & _).
  unfold scrapper. erewrite bind_returned by exact Hget.
  unfold try_finally, try_except at 1.
  unfold scrape_fields, mbind, M_bind, bind, try_except, wait_until_presence.
  rewrite driver_call_open by assumption.
  unfold title_element in Hwait. rewrite Hpage.
  destruct Hwait as [(e & -> & Hc) | (e & -> & Hc)].
  - destruct (decide (exc_class e = TimeoutException)); [| contradiction].
    reflexivity.
  - destruct (decide (exc_class e = TimeoutException)); [congruence |].
    destruct (decide (exc_class e = NoSuchElementException)); [| contradiction].
    reflexivity.
Qed.

Lemma attributes_length name imgs zooms :
  attributes name imgs = Returned zooms -> length zooms = length imgs.
Proof.
  revert zooms. induction imgs as [| img imgs IH]; intros zooms; simpl.
  - now intros [= <-].
  - destruct (get_attribute img name); simpl; [| discriminate].
    destruct (attributes name imgs) as [r |]; simpl; [| discriminate].
    intros [= <-]. simpl. f_equal. now apply IH.
Qed.

(** *** The claims on ebay.py *)

(** C2.  A record that cannot be serialized: [json.dumps] raises
    [TypeError], the handlers of [write_to_file] and [write_to_console]
    wait for [JSONDecodeError], so the exception leaves both methods.
    Nothing is printed, and [write_to_file] leaves [temp.json] empty. *)
Theorem write_unserializable_record_raises :
  let w := new_world (fun _ => sample_page) ∅ in
  write_to_file sample_float_repr record_with_bytes w
  = (Raised not_serializable, set_files {[path_file := ""]} w)
  /\ stdout (snd (write_to_file sample_float_repr record_with_bytes w)) = []
  /\ write_to_console sample_float_repr record_with_bytes w
     = (Raised not_serializable, w).
Proof.
  intros w.
  assert (H : json_dumps sample_float_repr 4 record_with_bytes
              = Raised not_serializable) by reflexivity.
  rewrite (write_to_file_unserializable _ _ _ w H).
  rewrite (write_to_console_unserializable _ _ _ w H).
  repeat split.
Qed.

(** C4.  A page that cannot be loaded: [browser.get] stands before the
    [try], its exception leaves [scrapper], and [quit] is not called: the
    session stays open. *)
Theorem scrapper_load_failure_keeps_browser :
  let w := new_world (fun _ => unreachable_page) ∅ in
  scrapper TEST_URL w = (Raised net_error, w)
  /\ quit_calls (snd (scrapper TEST_URL w)) = 0
  /\ session_open (snd (scrapper TEST_URL w)) = true.
Proof.
  intros w.
  rewrite (scrapper_load_fails TEST_URL w net_error) by reflexivity.
  repeat split.
Qed.

(** C5.  The title is there and one of the four reads after it finds its
    element missing: [scrapper] returns [None], no dictionary. *)
Theorem scrapper_no_partial_record url w u name_ele name :
  session_open w = true ->
  load (web w url) = Returned u ->
  title_element (web w url) = Returned name_ele ->
  text name_ele = Returned name ->
  some_field_absent (web w url) ->
  fst (scrapper url w) = Returned PNone.
Proof.
  intros Hopen Hload Hwait Htext Hmiss.
  rewrite (scrapper_title_found url w u name_ele) by assumption.
  unfold product_record. rewrite Htext. simpl.
  destruct Hmiss as [Hc | [[Hc Hp] | [(Hc & Hp & Hs) | (Hc & Hp & Hs & Hh)]]];
    repeat match goal with
           | H : present _ |- _ => destruct H as [? ->]; simpl
           | H : absent _ |- _ => destruct H as (e & -> & He); simpl
           end;
    (destruct (decide (exc_class e = NoSuchElementException));
     [reflexivity | contradiction]).
Qed.

Lemma scrapper_no_partial_record_witness :
  fst (scrapper TEST_URL (new_world (fun _ => page_without_price) ∅))
  = Returned PNone.
Proof.
  apply (scrapper_no_partial_record TEST_URL
           (new_world (fun _ => page_without_price) ∅) tt
           (leaf "Vintage lamp" None) "Vintage lamp");
    try reflexivity.
  right; left. split.
  - eexists. reflexivity.
  - exists no_such_element. split; reflexivity.
Defined.

(** C6.  Every field is there: [scrapper] returns a dictionary whose
    [current_url] is the url it was given and whose [path_img] has one
    entry for each image element of the carousel. *)
Theorem scrapper_success url w u name_ele name imgs zooms price seller shipping :
  session_open w = true ->
  load (web w url) = Returned u ->
  title_element (web w url) = Returned name_ele ->
  text name_ele = Returned name ->
  carousel_images (web w url) = Returned imgs ->
  attributes "data-zoom-src" imgs = Returned zooms ->
  price_read (web w url) = Returned price ->
  seller_read (web w url) = Returned seller ->
  shipping_read (web w url) = Returned shipping ->
  exists record path_img,
    fst (scrapper url w) = Returned (PDict record)
    /\ dict_get "current_url" record = Some (PStr url)
    /\ dict_get "path_img" record = Some (PList path_img)
    /\ length path_img = length imgs
    /\ dict_get "name" record = Some (PStr name)
    /\ dict_get "price" record = Some (PStr price)
    /\ dict_get "seller" record = Some (of_attribute seller)
    /\ dict_get "shipping_cost" record = Some (PStr shipping).
Proof.
  intros Hopen Hload Hwait Htext Himgs Hzoom Hprice Hseller Hship.
  rewrite (scrapper_title_found url w u name_ele) by assumption.
  unfold product_record, carousel_read.
  rewrite Htext, Himgs. simpl. rewrite Hzoom, Hprice, Hseller, Hship. simpl.
  eexists _, _. split; [reflexivity |].
  repeat split.
  rewrite length_fmap. eapply attributes_length, Hzoom.
Qed.

Lemma scrapper_success_witness :
  exists record path_img,
    fst (scrapper TEST_URL (new_world (fun _ => sample_page) ∅))
    = Returned (PDict record)
    /\ dict_get "current_url" record = Some (PStr TEST_URL)
    /\ dict_get "path_img" record = Some (PList path_img)
    /\ length path_img = 2
    /\ dict_get "name" record = Some (PStr "Vintage lamp")
    /\ dict_get "price" record = Some (PStr "US $25.00")
    /\ dict_get "seller" record = Some (of_attribute (Some "lamps4u"))
    /\ dict_get "shipping_cost" record = Some (PStr "US $5.00").
Proof.
  apply (scrapper_success TEST_URL (new_world (fun _ => sample_page) ∅) tt
           (leaf "Vintage lamp" None) "Vintage lamp"
           [image (Some "https://i.ebayimg.com/1.jpg");
            image (Some "https://i.ebayimg.com/2.jpg")]
           [Some "https://i.ebayimg.com/1.jpg";
            Some "https://i.ebayimg.com/2.jpg"]
           "US $25.00" (Some "lamps4u") "US $5.00");
    reflexivity.
Defined.

(** C8.  A record that can be serialized, written twice: each call
    returns, and after each [temp.json] holds the serialization and the
    files are the same. *)
Theorem write_to_file_idempotent float_repr record s w :
  json_dumps float_repr 4 record = Returned s ->
  fst (write_to_file float_repr record w) = Returned tt
  /\ files (snd (write_to_file float_repr record w)) !! path_file = Some s
  /\ fst (write_to_file float_repr record
            (snd (write_to_file float_repr record w))) = Returned tt
  /\ files (snd (write_to_file float_repr record
                   (snd (write_to_file float_repr record w))))
     = files (snd (write_to_file float_repr record w)).
Proof.
  intros H. rewrite !(write_to_file_serializable _ _ s) by exact H. simpl.
  rewrite lookup_insert_eq, insert_insert_eq. auto.
Qed.

Lemma write_to_file_idempotent_witness :
  exists s,
    json_dumps sample_float_repr 4 sample_record = Returned s
    /\ files (snd (write_to_file sample_float_repr sample_record
                     (new_world (fun _ => sample_page) ∅))) !! path_file = Some s
    /\ files (snd (write_to_file sample_float_repr sample_record
                     (snd (write_to_file sample_float_repr sample_record
                             (new_world (fun _ => sample_page) ∅)))))
       = files (snd (write_to_file sample_float_repr sample_record
                       (new_world (fun _ => sample_page) ∅))).
Proof.
  eexists. split; [reflexivity |].
  pose proof (write_to_file_idempotent sample_float_repr sample_record _
                (new_world (fun _ => sample_page) ∅) eq_refl)
    as (_ & H1 & _ & H2).
  split; [exact H1 | exact H2].
Defined.

End EBayFacts.

(** ** Facts about restcountries.py *)
Module RestCountriesFacts.
Import RestCountries PythonFacts.

(** *** Dictionaries *)

Lemma dict_get_set_eq {V} key (v : V) d : dict_get key (dict_set key v d) = Some v.
Proof.
  induction d as [| [k x] d IH]; simpl.
  - now rewrite decide_True.
  - destruct (decide (k = key)) as [-> | Hne]; simpl.
    + now rewrite decide_True.
    + now rewrite decide_False.
Qed.

Lemma dict_get_set_ne {V} key key' (v : V) d :
  key <> key' -> dict_get key' (dict_set key v d) = dict_get key' d.
Proof.
  intros Hne. induction d as [| [k x] d IH]; simpl.
  - now rewrite decide_False.
  - destruct (decide (k = key)) as [-> | Hk]; simpl.
    + now rewrite !decide_False.
    + destruct (decide (k = key')); [reflexivity | exact IH].
Qed.

Lemma dict_set_id {V} key (v : V) d : dict_get key d = Some v -> dict_set key v d = d.
Proof.
  induction d as [| [k x] d IH]; simpl; [discriminate |].
  destruct (decide (k = key)) as [-> | Hk].
  - now intros [= ->].
  - intros H. now rewrite IH.
Qed.

(** A key that is there stays there, whatever is assigned. *)
Lemma dict_set_keeps_keys {V} key key' (v : V) d :
  is_Some (dict_get key' d) -> is_Some (dict_get key' (dict_set key v d)).
Proof.
  intros H. destruct (decide (key = key')) as [-> | Hne].
  - rewrite dict_get_set_eq. eauto.
  - now rewrite dict_get_set_ne.
Qed.

(** *** The loop body *)

Ltac body_step :=
  unfold mbind, M_bind, bind, getitem, setitem, lift, subscript; simpl;
  rewrite ?dict_get_set_eq, ?dict_get_set_ne by discriminate.

(** The first and the third statement have one form. *)
Lemma field_statement key inner d :
  (x ← getitem key; y ← lift (subscript x inner); setitem key y) (JDict d)
  = match dict_get key d with
    | Some x =>
        match subscript x inner with
        | Returned y => (Returned tt, JDict (dict_set key y d))
        | Raised e => (Raised e, JDict d)
        end
    | None => (Raised (key_error key), JDict d)
    end.
Proof.
  unfold mbind, M_bind, bind, getitem, setitem, lift. simpl.
  destruct (dict_get key d) as [x |]; [| reflexivity].
  destruct (subscript x inner); reflexivity.
Qed.

(** The second statement: the value of [capital] decides. *)
Lemma capital_statement d capital :
  dict_get "capital" d = Some capital ->
  flatten_capital (JDict d)
  = match len capital with
    | Returned 0 => (Returned tt, JDict (dict_set "capital" (JStr "None") d))
    | Returned 1 =>
        match first capital with
        | Returned sole => (Returned tt, JDict (dict_set "capital" sole d))
        | Raised e => (Raised e, JDict d)
        end
    | Returned _ => (Returned tt, JDict d)
    | Raised e => (Raised e, JDict d)
    end.
Proof.
  intros H. unfold flatten_capital. body_step. rewrite H. simpl.
  destruct (len capital) as [[| [| n]] | e] eqn:Hlen; simpl;
    rewrite ?H; simpl; rewrite ?Hlen; simpl; rewrite ?H; simpl;
    try reflexivity.
Qed.

Lemma capital_statement_missing d :
  dict_get "capital" d = None ->
  flatten_capital (JDict d) = (Raised (key_error "capital"), JDict d).
Proof. intros H. unfold flatten_capital. body_step. now rewrite H. Qed.

Lemma flatten_country_steps country :
  flatten_country country
  = match flatten_name country with
    | (Returned _, c1) =>
        match flatten_capital c1 with
        | (Returned _, c2) => flatten_flags c2
        | (Raised e, c2) => (Raised e, c2)
        end
    | (Raised e, c1) => (Raised e, c1)
    end.
Proof.
  unfold flatten_country, mbind, M_bind, bind.
  destruct (flatten_name country) as [[[] |] c1]; [| reflexivity].
  destruct (flatten_capital c1) as [[[] |] c2]; reflexivity.
Qed.

(** The body on a record of the expected shape. *)
Lemma flatten_country_record d names common capital flags png :
  dict_get "name" d = Some (JDict names) ->
  dict_get "common" names = Some common ->
  dict_get "capital" d = Some (JList capital) ->
  dict_get "flags" d = Some (JDict flags) ->
  dict_get "png" flags = Some png ->
  flatten_country (JDict d)
  = (Returned tt,
     JDict (dict_set "flags" png
              (dict_set "capital" (collapse capital)
                 (dict_set "name" common d)))).
Proof.
  intros Hname Hcommon Hcapital Hflags Hpng.
  rewrite flatten_country_steps.
  unfold flatten_name. rewrite field_statement, Hname. simpl. rewrite Hcommon.
  rewrite (capital_statement _ (JList capital))
    by (rewrite dict_get_set_ne by discriminate; exact Hcapital).
  assert (Hfl : forall d', dict_get "flags" d' = Some (JDict flags) ->
                flatten_flags (JDict d')
                = (Returned tt, JDict (dict_set "flags" png d'))).
  { intros d' H. unfold flatten_flags. rewrite field_statement, H. simpl.
    now rewrite Hpng. }
  destruct capital as [| sole [| second more]]; simpl;
    rewrite Hfl by (rewrite ?dict_get_set_ne by discriminate; exact Hflags);
    try reflexivity.
  rewrite (dict_set_id "capital" (JList (sole :: second :: more))
             (dict_set "name" common d))
    by (rewrite dict_get_set_ne by discriminate; exact Hcapital).
  reflexivity.
Qed.

Lemma capital_statement_result d capital :
  dict_get "capital" d = Some capital ->
  if capital_ok capital
  then exists d', flatten_capital (JDict d) = (Returned tt, JDict d')
                  /\ is_Some (dict_get "capital" d')
                  /\ forall key, key <> "capital" -> dict_get key d' = dict_get key d
  else exists e c, flatten_capital (JDict d) = (Raised e, c).
Proof.
  intros H. rewrite (capital_statement d capital H).
  assert (Hset : forall v, is_Some (dict_get "capital" (dict_set "capital" v d))
                 /\ forall key, key <> "capital" ->
                    dict_get key (dict_set "capital" v d) = dict_get key d).
  { intros v. rewrite dict_get_set_eq. split; [eauto |].
    intros key Hne. apply dict_get_set_ne. congruence. }
  assert (Hsame : is_Some (dict_get "capital" d)
                  /\ forall key, key <> "capital" -> dict_get key d = dict_get key d).
  { rewrite H. eauto. }
  destruct capital as [| b | n | f | s | items | entries]; simpl; eauto.
  - destruct s as [| c [| c' s]]; simpl; eauto.
  - destruct items as [| x [| y items]]; simpl; eauto.
  - destruct entries as [| kv [| kv' entries]]; simpl; eauto.
Qed.

Lemma flags_statement_result d :
  if match dict_get "flags" d with
     | Some (JDict flags) => bool_decide (is_Some (dict_get "png" flags))
     | _ => false
     end
  then exists png, flatten_flags (JDict d) = (Returned tt, JDict (dict_set "flags" png d))
  else exists e c, flatten_flags (JDict d) = (Raised e, c).
Proof.
  unfold flatten_flags. rewrite field_statement.
  destruct (dict_get "flags" d) as [[| b | n | f | s | items | flags] |];
    simpl; eauto.
  destruct (dict_get "png" flags); simpl; eauto.
Qed.

(** The body returns on the records of [well_formed_country], leaving a
    record with the three columns, and raises on everything else. *)
Lemma flatten_country_result r :
  if well_formed_country r
  then fst (flatten_country r) = Returned tt /\ has_columns (flattened r)
  else exists e, fst (flatten_country r) = Raised e.
Proof.
  unfold flattened. rewrite flatten_country_steps.
  destruct r as [| b | n | f | s | items | d]; simpl; eauto.
  unfold flatten_name. rewrite field_statement.
  destruct (dict_get "name" d) as [[| b | n | f | s | items | names] |] eqn:Hname;
    simpl; eauto.
  destruct (dict_get "common" names) as [common |] eqn:Hcommon; simpl.
  2: { destruct (dict_get "capital" d); [destruct (dict_get "flags" d) as [[] |] |];
       simpl; eauto. }
  destruct (dict_get "capital" d) as [capital |] eqn:Hcapital.
  2: { rewrite capital_statement_missing
         by (rewrite dict_get_set_ne by discriminate; exact Hcapital).
       simpl. eauto. }
  assert (Hc : dict_get "capital" (dict_set "name" common d) = Some capital)
    by (rewrite dict_get_set_ne by discriminate; exact Hcapital).
  pose proof (capital_statement_result _ _ Hc) as Hres.
  destruct (capital_ok capital).
  - destruct Hres as (d2 & -> & Hcap2 & Hsame).
    pose proof (flags_statement_result d2) as Hflags.
    rewrite Hsame, dict_get_set_ne in Hflags by discriminate.
    destruct (dict_get "flags" d) as [[| b | n | f | s | items | flags] |];
      simpl in *; try (destruct Hflags as (e & c & ->); simpl; eauto).
    destruct (bool_decide (is_Some (dict_get "png" flags))).
    + destruct Hflags as (png & ->). simpl. split; [reflexivity |].
      eexists. split; [reflexivity |].
      rewrite dict_get_set_eq, !dict_get_set_ne by discriminate.
      rewrite Hsame, dict_get_set_eq by discriminate. eauto.
    + destruct Hflags as (e & c & ->). simpl. eauto.
  - destruct Hres as (e & c & ->).
    destruct (dict_get "flags" d) as [[| b | n | f | s | items | flags] |];
      simpl; eauto.
Qed.

Lemma flatten_country_returns r :
  well_formed_country r = true ->
  flatten_country r = (Returned tt, flattened r) /\ has_columns (flattened r).
Proof.
  intros H. pose proof (flatten_country_result r) as Hr. rewrite H in Hr.
  destruct Hr as [Hr Hc]. split; [| exact Hc].
  unfold flattened. destruct (flatten_country r). simpl in Hr. now subst.
Qed.

Lemma flatten_country_raises r :
  well_formed_country r = false -> exists e, fst (flatten_country r) = Raised e.
Proof. intros H. pose proof (flatten_country_result r) as Hr. now rewrite H in Hr. Qed.

(** *** The loop and the table *)

Lemma set_heap_same w : set_heap (heap w) w = w.
Proof. destruct w. reflexivity. Qed.

Lemma flatten_all_well_formed items :
  forallb well_formed_country items = true ->
  flatten_all items = (Returned tt, flattened <$> items).
Proof.
  induction items as [| r items IH]; simpl; [reflexivity |].
  intros [Hr Hitems]%andb_prop.
  destruct (flatten_country_returns r Hr) as [-> _].
  now rewrite IH.
Qed.

Lemma flatten_all_ill_formed items :
  forallb well_formed_country items = false ->
  exists e, fst (flatten_all items) = Raised e.
Proof.
  induction items as [| r items IH]; simpl; [discriminate |].
  destruct (well_formed_country r) eqn:Hr; simpl.
  - intros H. destruct (flatten_country_returns r Hr) as [-> _].
    destruct (IH H) as [e He]. destruct (flatten_all items). simpl in *. eauto.
  - intros _. destruct (flatten_country_raises r Hr) as [e He].
    destruct (flatten_country r) as [[[] |] c]; simpl in *; [discriminate |].
    eauto.
Qed.

Lemma flatten_all_length items : length (snd (flatten_all items)) = length items.
Proof.
  induction items as [| r items IH]; simpl; [reflexivity |].
  destruct (flatten_country r) as [[[] | e] c]; simpl; [| reflexivity].
  destruct (flatten_all items). simpl in *. now rewrite IH.
Qed.

(** The loop over the list at [data], from position [length done] on:
    the list ends as [flatten_all] says. *)
Lemma flatten_from_list data items :
  forall done w,
    heap w !! data = Some (JList (done ++ items)) ->
    flatten_from data (length done) items w
    = (fst (flatten_all items),
       set_heap (<[data := JList (done ++ snd (flatten_all items))]> (heap w)) w).
Proof.
  induction items as [| r items IH]; intros done w Hdata; simpl.
  - rewrite insert_id by exact Hdata. now rewrite set_heap_same.
  - destruct (flatten_country r) as [res r'] eqn:Hr.
    unfold mbind, M_bind, bind, store_item. rewrite Hdata.
    rewrite insert_app_r_alt, Nat.sub_diag by lia. simpl.
    destruct res as [[] | e]; simpl; [| reflexivity].
    specialize (IH (done ++ [r'])%list
                  (set_heap (<[data := JList (done ++ r' :: items)%list]> (heap w)) w)).
    rewrite length_app, Nat.add_1_r in IH. simpl in IH.
    rewrite IH by (rewrite lookup_insert_eq, <- app_assoc; reflexivity).
    destruct (flatten_all items) as [res' items']. simpl.
    rewrite insert_insert_eq, <- app_assoc. reflexivity.
Qed.

(** The loop over the keys of a [dict] or the characters of a string has
    no list to write to. *)
Lemma flatten_from_other data obj items :
  match obj with JList _ => False | _ => True end ->
  forall i w,
    heap w !! data = Some obj ->
    flatten_from data i items w = (fst (flatten_all items), w).
Proof.
  intros Hobj. induction items as [| r items IH]; intros i w Hdata; simpl;
    [reflexivity |].
  destruct (flatten_country r) as [res r'] eqn:Hr.
  unfold mbind, M_bind, bind, store_item. rewrite Hdata.
  destruct obj; try contradiction; simpl;
    (destruct res as [[] | e]; simpl; [| reflexivity]);
    rewrite (IH (S i) w Hdata); destruct (flatten_all items); reflexivity.
Qed.

Lemma deref_found l v w : heap w !! l = Some v -> deref l w = (Returned v, w).
Proof. intros H. unfold deref. now rewrite H. Qed.

(** [_print_table] on a list. *)
Lemma print_table_list self data records w :
  heap w !! data = Some (JList records) ->
  _print_table self data w
  = let w1 := set_heap (<[data := JList (snd (flatten_all records))]> (heap w)) w in
    match fst (flatten_all records) with
    | Raised e => (Raised e, w1)
    | Returned _ =>
        match select_columns (snd (flatten_all records)) table_columns with
        | Raised e => (Raised e, w1)
        | Returned rows =>
            (Returned tt, with_output [Frame table_header rows; blank_line] w1)
        end
    end.
Proof.
  intros Hdata. unfold _print_table.
  erewrite bind_returned by (apply deref_found; exact Hdata).
  erewrite bind_returned by reflexivity.
  pose proof (flatten_from_list data records [] w Hdata) as Hloop.
  simpl in Hloop. unfold mbind at 1, M_bind at 1, bind at 1. rewrite Hloop.
  destruct (flatten_all records) as [[[] | e] records']; simpl; [| reflexivity].
  erewrite bind_returned
    by (apply deref_found; simpl; apply lookup_insert_eq).
  erewrite bind_returned by reflexivity.
  fold table_columns.
  destruct (select_columns records' table_columns) as [rows | e]; simpl.
  - erewrite bind_returned by reflexivity.
    unfold mbind, M_bind, bind, emit, print, with_output, set_heap. simpl.
    unfold emit. simpl. rewrite <- app_assoc. reflexivity.
  - erewrite bind_raised; reflexivity.
Qed.

(** [_print_table] on what is no list: nothing is written to, nothing is
    printed, and the call raises. *)
Lemma print_table_other self data obj w :
  heap w !! data = Some obj ->
  match obj with JList _ => False | _ => True end ->
  exists e, _print_table self data w = (Raised e, w).
Proof.
  intros Hdata Hobj. unfold _print_table.
  erewrite bind_returned by (apply deref_found; exact Hdata).
  destruct (iterate obj) as [items | e] eqn:Hiter.
  2: { erewrite bind_raised by reflexivity. eauto. }
  erewrite bind_returned by reflexivity.
  unfold mbind at 1, M_bind at 1, bind at 1.
  rewrite (flatten_from_other data obj items Hobj 0 w Hdata).
  destruct obj as [| b | n | f | s | l | d]; try discriminate; try contradiction.
  - destruct s as [| c s]; simpl in Hiter; injection Hiter as <-; simpl.
    + erewrite bind_returned by (apply deref_found; exact Hdata).
      erewrite bind_raised by reflexivity. eauto.
    + eauto.
  - destruct d as [| [k v] d]; simpl in Hiter; injection Hiter as <-; simpl.
    + erewrite bind_returned by (apply deref_found; exact Hdata).
      erewrite bind_returned by reflexivity.
      erewrite bind_raised by reflexivity. eauto.
    + eauto.
Qed.

Lemma has_column_first d rest column :
  is_Some (dict_get column d) -> has_column (JDict d :: rest) column = true.
Proof. intros H. simpl. now rewrite bool_decide_eq_true_2. Qed.

Lemma select_columns_length records rows :
  select_columns records table_columns = Returned rows ->
  length rows = length records.
Proof.
  unfold select_columns.
  destruct (forallb (has_column records) table_columns); [| discriminate].
  intros [= <-]. now rewrite length_fmap.
Qed.

(** What is rendered, and what is not. *)
Lemma print_table_renders self data v w :
  heap w !! data = Some v ->
  renders v = true ->
  exists items rows,
    v = JList items
    /\ _print_table self data w
       = (Returned tt,
          with_output [Frame table_header rows; blank_line]
            (set_heap (<[data := JList (flattened <$> items)]> (heap w)) w))
    /\ length rows = length items.
Proof.
  intros Hdata Hv.
  destruct v as [| b | n | f | s | [| r rs] | d]; try discriminate.
  exists (r :: rs). unfold renders in Hv.
  rewrite (print_table_list self data (r :: rs) w Hdata).
  rewrite (flatten_all_well_formed _ Hv). cbv zeta. cbn [fst snd].
  assert (Hsel : exists rows,
             select_columns (flattened <$> r :: rs) table_columns = Returned rows).
  { simpl in Hv. apply andb_prop in Hv as [Hr _].
    destruct (flatten_country_returns r Hr) as [_ (d & Hd & Hn & Hc & Hf)].
    unfold select_columns. rewrite fmap_cons, Hd. unfold table_columns.
    cbn [forallb]. rewrite !has_column_first by assumption. simpl. eauto. }
  destruct Hsel as [rows Hsel]. rewrite Hsel. exists rows.
  split; [reflexivity |]. split; [reflexivity |].
  apply select_columns_length in Hsel. now rewrite length_fmap in Hsel.
Qed.

Lemma print_table_fails self data v w :
  heap w !! data = Some v ->
  renders v = false ->
  exists e w', _print_table self data w = (Raised e, w') /\ stdout w' = stdout w.
Proof.
  intros Hdata Hv.
  destruct v as [| b | n | f | s | items | d];
    try (destruct (print_table_other self data _ w Hdata I) as [e He]; now eauto).
  rewrite (print_table_list self data items w Hdata). cbv zeta.
  destruct items as [| r rs]; [simpl; eauto |].
  unfold renders in Hv. destruct (flatten_all_ill_formed _ Hv) as [e ->]. eauto.
Qed.

(** [_print_table] touches the object at [data] and the console. *)
Lemma print_table_frame self data w :
  keeps data w (snd (_print_table self data w))
  /\ requests (snd (_print_table self data w)) = requests w.
Proof.
  assert (Hsame : keeps data w w /\ requests w = requests w).
  { repeat split; auto. exists []. now rewrite app_nil_r. }
  destruct (heap w !! data) as [obj |] eqn:Hdata.
  2: { unfold _print_table. erewrite bind_raised; [exact Hsame |].
       unfold deref. rewrite Hdata. reflexivity. }
  assert (Hlist : forall items out,
             keeps data w (with_output out
                             (set_heap (<[data := JList items]> (heap w)) w))
             /\ requests (with_output out
                            (set_heap (<[data := JList items]> (heap w)) w))
                = requests w).
  { intros items out. repeat split; simpl; eauto.
    intros l v Hne Hl. now rewrite lookup_insert_ne. }
  assert (Hlist' : forall items,
             keeps data w (set_heap (<[data := JList items]> (heap w)) w)
             /\ requests (set_heap (<[data := JList items]> (heap w)) w)
                = requests w).
  { intros items. repeat split; simpl; eauto.
    - intros l v Hne Hl. now rewrite lookup_insert_ne.
    - exists []. now rewrite app_nil_r. }
  destruct obj as [| b | n | f | s | items | d];
    try (destruct (print_table_other self data _ w Hdata I) as [e ->];
         exact Hsame).
  rewrite (print_table_list self data items w Hdata). cbv zeta.
  destruct (flatten_all items) as [[[] | e] items']; simpl; [| apply Hlist'].
  destruct (select_columns items' table_columns); [apply Hlist | apply Hlist'].
Qed.

(** *** From the request to the status *)

Lemma getattr_fields self p w :
  plain_instance w self -> class_attrs w !! "_fields" = Some p ->
  getattr self "_fields" w = (Returned p, w).
Proof.
  intros (attrs & Hself & Hown) Hclass. unfold getattr.
  now rewrite Hself, Hown, Hclass.
Qed.

Lemma requests_get_eq url p pv w :
  heap w !! p = Some pv ->
  requests_get url p w
  = (server w (requests w) {| req_url := url; req_params := pv |},
     with_request {| req_url := url; req_params := pv |} w).
Proof.
  intros H. unfold requests_get.
  erewrite bind_returned by (apply deref_found; exact H). reflexivity.
Qed.

Lemma get_request_eq self url params p pv w :
  heap w !! p = Some pv -> params_at self params p w ->
  _get_request self url params w
  = let req := {| req_url := url; req_params := pv |} in
    let w1 := with_request req w in
    match server w (requests w) req with
    | Raised e => (Raised e, w1)
    | Returned response =>
        if (status_code response =? 200)%Z then
          match json response with
          | Decodes v =>
              (Returned (Some (fresh (dom (heap w)))),
               set_heap (<[fresh (dom (heap w)) := v]> (heap w)) w1)
          | Undecodable msg =>
              (Returned None,
               with_output [Line ("JSONDecodeError (get_all): " +:+ msg)] w1)
          end
        else
          (Returned None,
           with_output [Line ("Error response url: " +:+ url +:+ ": "
                              +:+ text response)] w1)
    end.
Proof.
  intros Hp Hparams. cbv zeta. unfold _get_request.
  unfold mbind at 1, M_bind at 1, bind at 1.
  destruct Hparams as [-> | (-> & Hself & Hclass)];
    [| erewrite bind_returned by (apply getattr_fields; eassumption)];
    rewrite (requests_get_eq url p pv w Hp);
    (destruct (server w (requests w) _) as [response | e]; [| reflexivity]);
    (destruct (status_code response =? 200)%Z; [| reflexivity]);
    unfold try_except, response_json;
    destruct (json response) as [v | msg]; reflexivity.
Qed.

Lemma renders_truthy v : renders v = true -> truthy v = true.
Proof. destruct v as [| | | | | [| r rs] |]; simpl; congruence. Qed.

Lemma keeps_refl l w : keeps l w w.
Proof. repeat split; auto. exists []. now rewrite app_nil_r. Qed.

#[local] Arguments renders : simpl never.
#[local] Arguments row_count : simpl never.

Lemma is_true_found l v w :
  heap w !! l = Some v -> is_true (Some l) w = (Returned (truthy v), w).
Proof.
  intros H. unfold is_true.
  erewrite bind_returned by (apply deref_found; exact H). reflexivity.
Qed.

(** [_print_table] as the end of an entry point sees it. *)
Lemma print_table_end self l v w :
  heap w !! l = Some v ->
  keeps l w (snd (_print_table self l w))
  /\ requests (snd (_print_table self l w)) = requests w
  /\ exists out,
      stdout (snd (_print_table self l w)) = stdout w ++ out
      /\ if renders v then
           fst (_print_table self l w) = Returned tt
           /\ exists rows, out = [Frame table_header rows; blank_line]
                           /\ length rows = row_count v
         else (exists e, fst (_print_table self l w) = Raised e) /\ out = [].
Proof.
  intros Hl. destruct (print_table_frame self l w) as [Hkeep Hreq].
  split; [exact Hkeep |]. split; [exact Hreq |].
  destruct (renders v) eqn:Hv.
  - destruct (print_table_renders self l v w Hl Hv) as (items & rows & -> & -> & Hlen).
    simpl. eauto 10.
  - destruct (print_table_fails self l v w Hl Hv) as (e & w' & -> & Hout).
    simpl. exists []. rewrite app_nil_r. eauto.
Qed.

Lemma show_finishes : finishes renders show.
Proof.
  split; [reflexivity |].
  intros self l v w Hl. unfold show.
  erewrite bind_returned by (apply is_true_found; exact Hl).
  destruct (truthy v) eqn:Ht.
  - destruct (print_table_end self l v w Hl) as (Hkeep & Hreq & out & Hout & Hres).
    unfold mbind, M_bind, bind.
    destruct (_print_table self l w) as [[[] | e] w']; simpl in *.
    + split; [exact Hkeep |]. split; [exact Hreq |]. exists out.
      split; [exact Hout |].
      destruct (renders v); [| destruct Hres as [[e He] _]; discriminate].
      destruct Hres as [_ Hrows]. auto.
    + split; [exact Hkeep |]. split; [exact Hreq |]. exists out.
      split; [exact Hout |].
      destruct (renders v); [destruct Hres as [He _]; discriminate |].
      destruct Hres as [_ ->]. eauto.
  - simpl. split; [apply keeps_refl |]. split; [reflexivity |].
    exists []. rewrite app_nil_r. split; [reflexivity |].
    destruct (renders v) eqn:Hv; [| auto].
    apply renders_truthy in Hv. congruence.
Qed.

Lemma fresh_not_there (h : gmap loc Json) : h !! fresh (dom h) = None.
Proof. apply not_elem_of_dom, is_fresh. Qed.

Lemma fresh_other (h : gmap loc Json) l v : h !! l = Some v -> l <> fresh (dom h).
Proof. intros H ->. rewrite fresh_not_there in H. discriminate. Qed.

Lemma renders_one_truthy v : renders_one v = true -> truthy v = true.
Proof.
  destruct v as [| b | n | f | s | items | d];
    try apply renders_truthy; unfold renders_one;
    now intros [? _]%andb_prop.
Qed.

Lemma show_one_finishes : finishes renders_one show_one.
Proof.
  split; [reflexivity |].
  intros self l v w Hl. unfold show_one.
  erewrite bind_returned by (apply is_true_found; exact Hl).
  destruct (truthy v) eqn:Ht.
  2: { simpl. split; [apply keeps_refl |]. split; [reflexivity |].
       exists []. rewrite app_nil_r. split; [reflexivity |].
       destruct (renders_one v) eqn:Hv; [| auto].
       apply renders_one_truthy in Hv. congruence. }
  erewrite bind_returned by (apply deref_found; exact Hl).
  assert (Hlist : forall items, v = JList items ->
            let r := (_print_table self l ≫= (fun _ => mret true)) w in
            keeps l w (snd r) /\ requests (snd r) = requests w
            /\ exists out, stdout (snd r) = stdout w ++ out
                /\ if renders_one v then
                     fst r = Returned true
                     /\ exists rows, out = [Frame table_header rows; blank_line]
                                     /\ length rows = row_count v
                   else (exists e, fst r = Raised e) /\ out = []).
  { intros items ->. cbv zeta.
    destruct (print_table_end self l _ w Hl) as (Hkeep & Hreq & out & Hout & Hres).
    unfold mbind, M_bind, bind. simpl renders_one.
    destruct (_print_table self l w) as [[[] | e] w']; simpl in *.
    - split; [exact Hkeep |]. split; [exact Hreq |]. exists out.
      split; [exact Hout |].
      destruct (renders (JList items)); [| destruct Hres as [[e He] _]; discriminate].
      destruct Hres as [_ Hrows]. auto.
    - split; [exact Hkeep |]. split; [exact Hreq |]. exists out.
      split; [exact Hout |].
      destruct (renders (JList items)); [destruct Hres as [He _]; discriminate |].
      destruct Hres as [_ ->]. eauto. }
  assert (Hone : (forall items, v <> JList items) ->
            let r := ((alloc (JList [v]) ≫= _print_table self)
                      ≫= (fun _ => mret true)) w in
            keeps l w (snd r) /\ requests (snd r) = requests w
            /\ exists out, stdout (snd r) = stdout w ++ out
                /\ if renders_one v then
                     fst r = Returned true
                     /\ exists rows, out = [Frame table_header rows; blank_line]
                                     /\ length rows = row_count v
                   else (exists e, fst r = Raised e) /\ out = []).
  { intros Hv. cbv zeta.
    set (l2 := fresh (dom (heap w))).
    set (w2 := set_heap (<[l2 := JList [v]]> (heap w)) w).
    assert (Hl2 : heap w2 !! l2 = Some (JList [v])) by apply lookup_insert_eq.
    destruct (print_table_end self l2 _ w2 Hl2)
      as ((Hc & Hi & Hs & Hh & _) & Hreq & out & Hout & Hres).
    assert (Hok : renders_one v = renders (JList [v])).
    { unfold renders. simpl forallb. rewrite andb_true_r.
      destruct v as [| b | n | f | s | items | d]; unfold renders_one;
        rewrite ?Ht; try reflexivity.
      now destruct (Hv items). }
    assert (Hrow : row_count v = row_count (JList [v])).
    { destruct v as [| b | n | f | s | items | d]; try reflexivity.
      now destruct (Hv items). }
    rewrite Hok, Hrow.
    unfold mbind, M_bind, bind, alloc. fold l2. fold w2.
    assert (Hkeep : keeps l w (snd (_print_table self l2 w2))).
    { repeat split; try assumption.
      - intros l' v' _ Hl'. apply Hh.
        + now apply fresh_other in Hl'.
        + simpl. rewrite lookup_insert_ne; [exact Hl' |].
          apply not_eq_sym. now apply fresh_other in Hl'.
      - exists out. exact Hout. }
    destruct (_print_table self l2 w2) as [[[] | e] w']; simpl in *.
    - split; [exact Hkeep |]. split; [exact Hreq |]. exists out.
      split; [exact Hout |].
      destruct (renders (JList [v]));
        [| destruct Hres as [[e He] _]; discriminate].
      destruct Hres as [_ Hrows]. auto.
    - split; [exact Hkeep |]. split; [exact Hreq |]. exists out.
      split; [exact Hout |].
      destruct (renders (JList [v]));
        [destruct Hres as [He _]; discriminate |].
      destruct Hres as [_ ->]. eauto. }
  destruct v as [| b | n | f | s | items | d];
    try (apply Hone; discriminate).
  eapply Hlist. reflexivity.
Qed.

(** A request and the end of an entry point, one after the other. *)
Section Query.
Variable ok : Json -> bool.
Variable finish : iid -> option loc -> Py bool.
Hypothesis Hend : finishes ok finish.

Lemma query_spec self url params p pv w :
  heap w !! p = Some pv -> params_at self params p w ->
  let req := {| req_url := url; req_params := pv |} in
  let r := (_get_request self url params ≫= finish self) w in
  class_attrs (snd r) = class_attrs w
  /\ instances (snd r) = instances w
  /\ server (snd r) = server w
  /\ requests (snd r) = requests w ++ [req]
  /\ (forall l v, heap w !! l = Some v -> heap (snd r) !! l = Some v)
  /\ exists out, stdout (snd r) = stdout w ++ out
                 /\ verdict ok url (server w (requests w) req) (fst r) out.
Proof using Hend.
  intros Hp Hparams. cbv zeta. destruct Hend as [Hnone Hsome].
  unfold mbind, M_bind, bind.
  rewrite (get_request_eq self url params p pv w Hp Hparams). cbv zeta.
  unfold verdict.
  destruct (server w (requests w) _) as [response | e].
  2: { simpl. repeat split; auto. exists []. now rewrite app_nil_r. }
  destruct (status_code response =? 200)%Z.
  2: { rewrite Hnone. simpl. repeat split; eauto. }
  destruct (json response) as [v | msg].
  2: { rewrite Hnone. simpl. repeat split; eauto. }
  set (l := fresh (dom (heap w))).
  set (w2 := set_heap _ _).
  assert (Hl : heap w2 !! l = Some v) by apply lookup_insert_eq.
  destruct (Hsome self l v w2 Hl)
    as ((Hc & Hi & Hs & Hh & _) & Hreq & out & Hout & Hres).
  destruct (finish self (Some l) w2) as [res w']. simpl in *.
  repeat split; try assumption.
  - intros l' v' Hl'. apply Hh.
    + now apply fresh_other in Hl'.
    + rewrite lookup_insert_ne; [exact Hl' |].
      apply not_eq_sym. now apply fresh_other in Hl'.
  - exists out. split; [exact Hout | exact Hres].
Qed.

End Query.

(** Every entry point: the GET it sends, what it leaves of the world, and
    what it returns and prints. *)
Lemma invoke_spec self c w p d :
  class_attrs w !! "_fields" = Some p ->
  heap w !! p = Some (JDict d) ->
  plain_instance w self ->
  class_attrs (snd (invoke self c w)) = class_attrs w
  /\ instances (snd (invoke self c w)) = instances w
  /\ server (snd (invoke self c w)) = server w
  /\ requests (snd (invoke self c w)) = requests w ++ [call_request c d]
  /\ heap (snd (invoke self c w)) !! p = Some (JDict (call_fields c d))
  /\ (forall l v, l <> p -> heap w !! l = Some v ->
                  heap (snd (invoke self c w)) !! l = Some v)
  /\ exists out,
      stdout (snd (invoke self c w)) = stdout w ++ out
      /\ verdict (renders_for c) (call_url c)
                 (server w (requests w) (call_request c d))
                 (fst (invoke self c w)) out.
Proof.
  intros Hclass Hp Hself.
  assert (Hdefault : forall ok finish url,
            finishes ok finish ->
            let r := (_get_request self url None ≫= finish self) w in
            class_attrs (snd r) = class_attrs w
            /\ instances (snd r) = instances w
            /\ server (snd r) = server w
            /\ requests (snd r)
               = requests w ++ [{| req_url := url; req_params := JDict d |}]
            /\ heap (snd r) !! p = Some (JDict d)
            /\ (forall l v, l <> p -> heap w !! l = Some v ->
                            heap (snd r) !! l = Some v)
            /\ exists out,
                stdout (snd r) = stdout w ++ out
                /\ verdict ok url
                           (server w (requests w)
                              {| req_url := url; req_params := JDict d |})
                           (fst r) out).
  { intros ok finish url Hend.
    destruct (query_spec ok finish Hend self url None p (JDict d) w Hp)
      as (Hc & Hi & Hs & Hr & Hh & Hout).
    { right. auto. }
    cbv zeta. repeat split; auto. }
  assert (Hextra : forall url key value,
            let d' := dict_set key value d in
            let r := (getattr self "_fields"
                      ≫= fun fields =>
                           obj_setitem fields key value
                           ≫= fun _ =>
                                getattr self "_fields"
                                ≫= fun fields =>
                                     _get_request self url (Some fields)
                                     ≫= show self) w in
            class_attrs (snd r) = class_attrs w
            /\ instances (snd r) = instances w
            /\ server (snd r) = server w
            /\ requests (snd r)
               = requests w ++ [{| req_url := url; req_params := JDict d' |}]
            /\ heap (snd r) !! p = Some (JDict d')
            /\ (forall l v, l <> p -> heap w !! l = Some v ->
                            heap (snd r) !! l = Some v)
            /\ exists out,
                stdout (snd r) = stdout w ++ out
                /\ verdict renders url
                           (server w (requests w)
                              {| req_url := url; req_params := JDict d' |})
                           (fst r) out).
  { intros url key value. cbv zeta.
    erewrite bind_returned by (apply getattr_fields; eassumption).
    set (w0 := set_heap (<[p := JDict (dict_set key value d)]> (heap w)) w).
    assert (Hset : obj_setitem p key value w = (Returned tt, w0)).
    { unfold obj_setitem. rewrite Hp. reflexivity. }
    erewrite bind_returned by exact Hset.
    assert (Hself0 : plain_instance w0 self) by exact Hself.
    erewrite bind_returned by (apply getattr_fields; eassumption).
    assert (Hp0 : heap w0 !! p = Some (JDict (dict_set key value d)))
      by apply lookup_insert_eq.
    destruct (query_spec renders show show_finishes self url (Some p) p _ w0 Hp0)
      as (Hc & Hi & Hs & Hr & Hh & Hout).
    { left. reflexivity. }
    cbv zeta in *. repeat split; auto.
    intros l v Hne Hl. apply Hh. simpl. now rewrite lookup_insert_ne. }
  destruct c; simpl invoke; simpl call_request; simpl call_fields;
    simpl renders_for; unfold call_request; simpl call_url;
    try (apply (Hdefault renders show _ show_finishes)).
  - apply (Hextra _ "fullText" (JStr "true")).
  - destruct code; apply (Hdefault renders_one show_one _ show_one_finishes).
  - apply (Hextra _ "codes" (JList (code_json <$> code))).
Qed.

(** *** The claims on the table *)

Lemma country_record_well_formed r common capital png :
  country_record r common capital png -> well_formed_country r = true.
Proof.
  intros (d & names & flags & -> & Hn & Hc & Hcap & Hf & Hp).
  unfold well_formed_country. rewrite Hn, Hcap, Hf, Hc, Hp. reflexivity.
Qed.

Lemma country_record_flattened r common capital png :
  country_record r common capital png ->
  flatten_country r = (Returned tt, flattened r)
  /\ displayed (flattened r) common capital png.
Proof.
  intros (d & names & flags & -> & Hn & Hc & Hcap & Hf & Hp).
  unfold flattened.
  rewrite (flatten_country_record d names common capital flags png) by assumption.
  split; [reflexivity |]. simpl. eexists. split; [reflexivity |].
  rewrite dict_get_set_eq, !dict_get_set_ne, !dict_get_set_eq by discriminate.
  rewrite dict_get_set_ne, dict_get_set_eq by discriminate. auto.
Qed.

(** C7.  The loop body on a record: [name] becomes the common name,
    [capital] becomes ["None"] for an empty list, its member for a list of
    one and stays the list otherwise, [flags] becomes the PNG address; the
    other keys keep their values. *)
Theorem table_normalization d names common capital flags png :
  dict_get "name" d = Some (JDict names) ->
  dict_get "common" names = Some common ->
  dict_get "capital" d = Some (JList capital) ->
  dict_get "flags" d = Some (JDict flags) ->
  dict_get "png" flags = Some png ->
  exists d',
    flatten_country (JDict d) = (Returned tt, JDict d')
    /\ dict_get "name" d' = Some common
    /\ dict_get "capital" d'
       = Some match capital with
              | [] => JStr "None"
              | [sole] => sole
              | _ => JList capital
              end
    /\ dict_get "flags" d' = Some png
    /\ forall key, key <> "name" -> key <> "capital" -> key <> "flags" ->
                   dict_get key d' = dict_get key d.
Proof.
  intros Hn Hc Hcap Hf Hp.
  rewrite (flatten_country_record d names common capital flags png) by assumption.
  eexists. split; [reflexivity |].
  rewrite dict_get_set_eq, !dict_get_set_ne, !dict_get_set_eq by discriminate.
  rewrite dict_get_set_ne, dict_get_set_eq by discriminate.
  repeat split.
  intros key H1 H2 H3. now rewrite !dict_get_set_ne by congruence.
Qed.

Lemma table_normalization_witness :
  flatten_country estonia
  = (Returned tt,
     JDict [("flags", JStr "https://flagcdn.com/w320/ee.png");
            ("name", JStr "Estonia"); ("capital", JStr "Tallinn")])
  /\ flatten_country antarctica
     = (Returned tt,
        JDict [("flags", JStr "https://flagcdn.com/w320/aq.png");
               ("name", JStr "Antarctica"); ("capital", JStr "None")]).
Proof.
  split.
  - destruct (table_normalization
                [("flags", JDict [("png", JStr "https://flagcdn.com/w320/ee.png");
                                  ("svg", JStr "")]);
                 ("name", JDict [("common", JStr "Estonia");
                                 ("official", JStr "Republic of Estonia")]);
                 ("capital", JList [JStr "Tallinn"])]
                [("common", JStr "Estonia"); ("official", JStr "Republic of Estonia")]
                (JStr "Estonia") [JStr "Tallinn"]
                [("png", JStr "https://flagcdn.com/w320/ee.png"); ("svg", JStr "")]
                (JStr "https://flagcdn.com/w320/ee.png")
                eq_refl eq_refl eq_refl eq_refl eq_refl) as (d' & _).
    reflexivity.
  - reflexivity.
Defined.

(** C9, as the code has it.  [_print_table] on a list of records of the
    API: whether it returns or not, the list of the caller then holds, for
    each record, the record as the table shows it: [name] and [flags] are
    the common name and the PNG address, [capital] is ["None"], the member
    of a list of one, or the list as it was when it has more members. *)
Theorem print_table_mutates_records self data records w :
  heap w !! data = Some (JList records) ->
  Forall (fun r => exists common capital png, country_record r common capital png)
         records ->
  exists records',
    heap (snd (_print_table self data w)) !! data = Some (JList records')
    /\ Forall2 (fun r r' => forall common capital png,
                   country_record r common capital png ->
                   displayed r' common capital png)
               records records'.
Proof.
  intros Hdata Hrecords. exists (flattened <$> records). split.
  - rewrite (print_table_list self data records w Hdata). cbv zeta.
    rewrite flatten_all_well_formed.
    + simpl.
      destruct (select_columns (flattened <$> records) table_columns);
        simpl; apply lookup_insert_eq.
    + apply forallb_forall. intros r Hin.
      rewrite Forall_forall in Hrecords.
      destruct (Hrecords r) as (common & capital & png & Hr).
      { now apply list_elem_of_In. }
      eapply country_record_well_formed, Hr.
  - clear Hdata. induction Hrecords as [| r records _ _ IH]; simpl.
    + constructor.
    + constructor; [| exact IH].
      intros common capital png Hr.
      now apply country_record_flattened.
Qed.

Lemma print_table_mutates_records_witness :
  exists records',
    heap (snd (_print_table client sample_list (world_with_list [estonia; antarctica])))
      !! sample_list = Some (JList records')
    /\ Forall2 (fun r r' => forall common capital png,
                   country_record r common capital png ->
                   displayed r' common capital png)
               [estonia; antarctica] records'.
Proof.
  apply (print_table_mutates_records client sample_list [estonia; antarctica]
           (world_with_list [estonia; antarctica])).
  - reflexivity.
  - repeat constructor.
    + exists (JStr "Estonia"), [JStr "Tallinn"], (JStr "https://flagcdn.com/w320/ee.png").
      unfold country_record, estonia, country. eexists _, _, _.
      repeat split; reflexivity.
    + exists (JStr "Antarctica"), [], (JStr "https://flagcdn.com/w320/aq.png").
      unfold country_record, antarctica, country. eexists _, _, _.
      repeat split; reflexivity.
Defined.

(** C9, as it is stated, fails on South Africa: after the call its
    [capital] is the list of three it was, no text. *)
Lemma print_table_keeps_capital_list :
  fst (_print_table client sample_list (world_with_list [south_africa]))
  = Returned tt
  /\ heap (snd (_print_table client sample_list (world_with_list [south_africa])))
       !! sample_list
     = Some (JList [JDict [("flags", JStr "https://flagcdn.com/w320/za.png");
                           ("name", JStr "South Africa");
                           ("capital", JList [JStr "Pretoria"; JStr "Bloemfontein";
                                              JStr "Cape Town"])]]).
Proof. split; reflexivity. Qed.

(** *** The claims on the entry points *)

Lemma fields_of_found w d :
  fields_of w = Some d ->
  exists p, class_attrs w !! "_fields" = Some p /\ heap w !! p = Some (JDict d).
Proof.
  unfold fields_of. destruct (class_attrs w !! "_fields") as [p |]; [| discriminate].
  destruct (heap w !! p) as [[| | | | | | d'] |] eqn:Hp; try discriminate.
  intros [= ->]. eauto.
Qed.






(** C1.  [get_by_fullname] and then [get_by_name] on one client: the
    second GET carries [fullText=true] as the first does. *)
Theorem fulltext_leaks_into_get_by_name :
  requests (snd (get_by_name client "Peru"
                   (snd (get_by_fullname client "Germany"
                           (client_world (always (JList [estonia])))))))
  = [ {| req_url := "https://restcountries.com/v3.1/name/Germany";
         req_params :=
           JDict [("fields", JList [JStr "name"; JStr "capital"; JStr "flags"]);
                  ("fullText", JStr "true")] |};
      {| req_url := "https://restcountries.com/v3.1/name/Peru";
         req_params :=
           JDict [("fields", JList [JStr "name"; JStr "capital"; JStr "flags"]);
                  ("fullText", JStr "true")] |} ].
Proof. reflexivity. Qed.

(** *** The class attribute over a run *)

Lemma fields_of_eq w p d :
  class_attrs w !! "_fields" = Some p -> heap w !! p = Some (JDict d) ->
  fields_of w = Some d.
Proof. intros Hc Hp. unfold fields_of. now rewrite Hc, Hp. Qed.

Lemma getattr_no_instance self name w :
  instances w !! self = None ->
  exists e, getattr self name w = (Raised e, w).
Proof. intros H. unfold getattr. rewrite H. eauto. Qed.

(** A call on what is no instance raises at once. *)
Lemma invoke_no_instance self c w :
  instances w !! self = None -> snd (invoke self c w) = w.
Proof.
  intros H.
  assert (Hreq : forall url, exists e, _get_request self url None w = (Raised e, w)).
  { intros url. destruct (getattr_no_instance self "_fields" w H) as [e He].
    exists e. unfold _get_request.
    erewrite bind_raised; [reflexivity |].
    erewrite bind_raised; [reflexivity | exact He]. }
  assert (Hdefault : forall url (finish : option loc -> Py bool),
             snd ((_get_request self url None ≫= finish) w) = w).
  { intros url finish. destruct (Hreq url) as [e He].
    erewrite bind_raised by exact He. reflexivity. }
  assert (Hextra : forall A (k : loc -> Py A),
             snd ((getattr self "_fields" ≫= k) w) = w).
  { intros A k. destruct (getattr_no_instance self "_fields" w H) as [e He].
    erewrite bind_raised by exact He. reflexivity. }
  destruct c; simpl; try apply Hdefault; apply Hextra.
Qed.

Lemma class_state_init srv : class_state (init_world srv).
Proof.
  split; [unfold fields_of; simpl; eauto |].
  intros i attrs. simpl. rewrite lookup_empty. discriminate.
Qed.

Lemma class_state_new w : class_state w -> class_state (snd (new w)).
Proof.
  intros [Hf Hi]. split; [exact Hf |].
  intros i attrs. simpl.
  destruct (decide (fresh (dom (instances w)) = i)) as [<- | Hne].
  - rewrite lookup_insert_eq. now intros [= <-].
  - rewrite lookup_insert_ne by exact Hne. apply Hi.
Qed.

(** A property of the dictionary of [_fields] that no entry point undoes
    holds from then on, whatever is called on whatever instance. *)
Section Invariant.
Variable Q : list (string * Json) -> Prop.
Hypothesis HQ : forall c d, Q d -> Q (call_fields c d).

Lemma invoke_settled self c w d :
  class_state w -> fields_of w = Some d -> plain_instance w self -> Q d ->
  settled Q (snd (invoke self c w))
  /\ requests (snd (invoke self c w)) = requests w ++ [call_request c d]
  /\ fields_of (snd (invoke self c w)) = Some (call_fields c d).
Proof using HQ.
  intros [_ Hplain] Hfields Hself Hd.
  destruct (fields_of_found w d Hfields) as (p & Hclass & Hp).
  destruct (invoke_spec self c w p d Hclass Hp Hself)
    as (Hc & Hi & _ & Hr & Hh & _).
  assert (Hf : fields_of (snd (invoke self c w)) = Some (call_fields c d)).
  { eapply fields_of_eq; [rewrite Hc; exact Hclass | exact Hh]. }
  split; [| split; assumption].
  split; [split |].
  - rewrite Hf. eauto.
  - rewrite Hi. exact Hplain.
  - eauto.
Qed.

Lemma step_settled a w : settled Q w -> settled Q (step w a).
Proof using HQ.
  intros [Hstate (d & Hfields & Hd)]. destruct a as [| self c]; simpl.
  - split; [now apply class_state_new |]. exists d. split; assumption.
  - destruct (instances w !! self) as [attrs |] eqn:Hself.
    + apply (invoke_settled self c w d); try assumption.
      exists attrs. split; [exact Hself |].
      destruct Hstate as [_ Hplain]. eapply Hplain, Hself.
    + rewrite invoke_no_instance by exact Hself.
      split; [exact Hstate |]. eauto.
Qed.

Lemma run_settled prog w : settled Q w -> settled Q (run prog w).
Proof using HQ.
  revert w. induction prog as [| a prog IH]; intros w Hw; simpl; [exact Hw |].
  apply IH, step_settled, Hw.
Qed.

End Invariant.

Lemma fulltext_stays c d :
  dict_get "fullText" d = Some (JStr "true") ->
  dict_get "fullText" (call_fields c d) = Some (JStr "true").
Proof.
  intros H. destruct c; simpl; try exact H.
  - apply dict_get_set_eq.
  - now rewrite dict_get_set_ne.
Qed.

Lemma codes_stay c d :
  is_Some (dict_get "codes" d) -> is_Some (dict_get "codes" (call_fields c d)).
Proof.
  intros H. destruct c; simpl; try exact H; now apply dict_set_keeps_keys.
Qed.

(** After a call that puts a key into [_fields], and whatever follows it:
    the key is there, and the next call on any instance sends it. *)
Lemma key_sticks (Q : list (string * Json) -> Prop) mutator a b prog c w :
  (forall c d, Q d -> Q (call_fields c d)) ->
  (forall d, Q (call_fields mutator d)) ->
  class_state w -> is_Some (instances w !! a) ->
  settled Q (run prog (snd (invoke a mutator w)))
  /\ (is_Some (instances (run prog (snd (invoke a mutator w))) !! b) ->
      exists req d,
        requests (snd (invoke b c (run prog (snd (invoke a mutator w)))))
        = requests (run prog (snd (invoke a mutator w))) ++ [req]
        /\ req_params req = JDict d /\ Q d).
Proof.
  intros HQ Hmut Hstate [attrs Ha].
  assert (Hw1 : settled Q (snd (invoke a mutator w))).
  { destruct Hstate as [[d Hfields] Hplain].
    destruct (fields_of_found w d Hfields) as (p & Hclass & Hp).
    destruct (invoke_spec a mutator w p d Hclass Hp)
      as (Hc & Hi & _ & _ & Hh & _).
    { exists attrs. split; [exact Ha | eapply Hplain, Ha]. }
    split; [split |].
    - erewrite fields_of_eq; [eauto | rewrite Hc; exact Hclass | exact Hh].
    - rewrite Hi. exact Hplain.
    - exists (call_fields mutator d). split; [| apply Hmut].
      eapply fields_of_eq; [rewrite Hc; exact Hclass | exact Hh]. }
  pose proof (run_settled Q HQ prog _ Hw1) as Hw2.
  split; [exact Hw2 |].
  intros [attrs' Hb]. destruct Hw2 as [Hstate2 (d2 & Hfields2 & Hd2)].
  destruct (invoke_settled Q HQ b c _ d2 Hstate2 Hfields2) as (_ & Hr & _);
    [| exact Hd2 |].
  { exists attrs'. split; [exact Hb |]. destruct Hstate2 as [_ Hplain].
    eapply Hplain, Hb. }
  exists (call_request c d2), (call_fields c d2).
  split; [exact Hr |]. split; [reflexivity | now apply HQ].
Qed.

(** C10.  [_fields] belongs to the class.  After [get_by_fullname] on an
    instance [a], whatever is then called on whatever instances ([prog]),
    the key [fullText] is in the dictionary, and the next call [c] on any
    instance [b] sends a GET with [fullText=true]; the same holds for
    [get_by_listcodes] and the key [codes]. *)
Theorem class_fields_shared a b prog c w :
  class_state w ->
  is_Some (instances w !! a) ->
  (forall fullname,
     leaked "fullText" (run prog (snd (get_by_fullname a fullname w)))
     /\ (is_Some (instances (run prog (snd (get_by_fullname a fullname w))) !! b) ->
         exists req,
           requests (snd (invoke b c (run prog (snd (get_by_fullname a fullname w)))))
           = requests (run prog (snd (get_by_fullname a fullname w))) ++ [req]
           /\ param req "fullText" = Some (JStr "true")))
  /\ (forall code,
        leaked "codes" (run prog (snd (get_by_listcodes a code w)))
        /\ (is_Some (instances (run prog (snd (get_by_listcodes a code w))) !! b) ->
            exists req,
              requests (snd (invoke b c (run prog (snd (get_by_listcodes a code w)))))
              = requests (run prog (snd (get_by_listcodes a code w))) ++ [req]
              /\ is_Some (param req "codes"))).
Proof.
  intros Hstate Ha. split.
  - intros fullname.
    destruct (key_sticks (fun d => dict_get "fullText" d = Some (JStr "true"))
                (ByFullname fullname) a b prog c w fulltext_stays)
      as [(_ & d & Hfields & Hd) Hnext]; try assumption.
    { intros d. apply dict_get_set_eq. }
    split.
    + exists d. rewrite Hd. eauto.
    + intros Hb. destruct (Hnext Hb) as (req & d' & Hr & Hparams & Hd').
      exists req. split; [exact Hr |]. unfold param. now rewrite Hparams.
  - intros code.
    destruct (key_sticks (fun d => is_Some (dict_get "codes" d))
                (ByListcodes code) a b prog c w codes_stay)
      as [(_ & d & Hfields & Hd) Hnext]; try assumption.
    { intros d. simpl. rewrite dict_get_set_eq. eauto. }
    split.
    + exists d. eauto.
    + intros Hb. destruct (Hnext Hb) as (req & d' & Hr & Hparams & Hd').
      exists req. split; [exact Hr |]. unfold param. now rewrite Hparams.
Qed.

(** The script's own order of calls: [get_by_fullname] on one client, two
    calls in between, one of them [RestCountries()], and then
    [get_by_code] on the second client. *)
Lemma class_fields_shared_witness :
  exists req,
    requests
      (snd (get_by_code 2%positive (StrCode "col")
              (run [New; Invoke client (ByName "deutschland")]
                 (snd (get_by_fullname client "Germany"
                         (client_world (always (JList [estonia]))))))))
    = requests
        (run [New; Invoke client (ByName "deutschland")]
           (snd (get_by_fullname client "Germany"
                   (client_world (always (JList [estonia]))))))
      ++ [req]
    /\ param req "fullText" = Some (JStr "true").
Proof.
  destruct (class_fields_shared client 2%positive
              [New; Invoke client (ByName "deutschland")]
              (ByCode (StrCode "col"))
              (client_world (always (JList [estonia]))))
    as [Hfull _].
  - apply class_state_new, class_state_init.
  - exists ∅. reflexivity.
  - destruct (Hfull "Germany") as [_ Hnext]. apply Hnext.
    exists ∅. reflexivity.
Defined.

End RestCountriesFacts.

(** ** More on ebay.py: the script and the edges of [scrapper] *)
Module EBayBehaviour.
Import EBay PythonFacts EBayFacts.

Lemma browser_get_eq url w u :
  session_open w = true -> load (web w url) = Returned u ->
  browser_get url w
  = (Returned tt,
     {| web := web w; session_open := true; current_page := web w url;
        quit_calls := quit_calls w; stdout := stdout w; files := files w |}).
Proof. intros Hopen Hload. unfold browser_get. now rewrite Hopen, Hload. Qed.

Lemma scraped_nothing url w :
  {| web := web w; session_open := false; current_page := web w url;
     quit_calls := S (quit_calls w); stdout := stdout w; files := files w |}
  = scraped url [] w.
Proof. unfold scraped. now rewrite app_nil_r. Qed.

(** [scrapper] after a load that went through, path by path. *)
Lemma scrapper_eq url w u :
  session_open w = true -> load (web w url) = Returned u ->
  scrapper url w
  = match title_element (web w url) with
    | Returned name_ele =>
        match product_record url (web w url) name_ele with
        | Returned d => (Returned d, scraped url [] w)
        | Raised e =>
            if decide (exc_class e = NoSuchElementException)
            then (Returned PNone, scraped url [not_found_line e] w)
            else (Raised e, scraped url [] w)
        end
    | Raised e =>
        if decide (exc_class e = TimeoutException)
        then (Returned PNone,
              scraped url ["TimeoutException for page";
                           not_found_line no_such_element] w)
        else if decide (exc_class e = NoSuchElementException)
             then (Returned PNone, scraped url [not_found_line e] w)
             else (Raised e, scraped url [] w)
    end.
Proof.
  intros Hopen Hload. unfold scrapper.
  rewrite (bind_returned _ _ _ _ _ (browser_get_eq url w u Hopen Hload)).
  set (w1 := {| web := web w; session_open := true; current_page := web w url;
                quit_calls := quit_calls w; stdout := stdout w;
                files := files w |}).
  assert (Hopen1 : session_open w1 = true) by reflexivity.
  unfold try_finally, try_except at 1.
  destruct (title_element (web w url)) as [name_ele | e] eqn:Hwait.
  - rewrite (scrape_fields_after_title url w1 name_ele Hopen1 Hwait).
    change (current_page w1) with (web w url).
    destruct (product_record url (web w url) name_ele) as [d | e]; simpl.
    + now rewrite <- scraped_nothing.
    + destruct (decide (exc_class e = NoSuchElementException)); simpl;
        [reflexivity | now rewrite <- scraped_nothing].
  - unfold scrape_fields, mbind, M_bind, bind, try_except, wait_until_presence.
    rewrite driver_call_open by assumption.
    change (current_page w1) with (web w url).
    unfold title_element in Hwait. rewrite Hwait.
    destruct (decide (exc_class e = TimeoutException)); simpl.
    + unfold scraped. simpl. rewrite <- app_assoc. reflexivity.
    + destruct (decide (exc_class e = NoSuchElementException)); simpl;
        [reflexivity | now rewrite <- scraped_nothing].
Qed.

(** A closed session: [browser.get] raises before anything else. *)
Lemma scrapper_closed url w :
  session_open w = false -> scrapper url w = (Raised session_lost, w).
Proof.
  intros Hclosed. unfold scrapper.
  erewrite bind_raised; [reflexivity |].
  unfold browser_get. now rewrite Hclosed.
Qed.

(** Every way through [scrapper] leaves the site and the files alone. *)
Lemma scrapper_frame url w :
  web (snd (scrapper url w)) = web w /\ files (snd (scrapper url w)) = files w.
Proof.
  destruct (session_open w) eqn:Hopen.
  2: { now rewrite scrapper_closed. }
  destruct (load (web w url)) as [u | e] eqn:Hload.
  2: { now rewrite (scrapper_load_fails url w e). }
  rewrite (scrapper_eq url w u Hopen Hload).
  destruct (title_element (web w url)) as [name_ele | e].
  - destruct (product_record url (web w url) name_ele) as [d | e];
      [auto | destruct (decide (exc_class e = NoSuchElementException)); auto].
  - destruct (decide (exc_class e = TimeoutException));
      [auto | destruct (decide (exc_class e = NoSuchElementException)); auto].
Qed.

(** A scrape that returns a record has printed nothing. *)
Lemma scrapper_quiet url w r :
  fst (scrapper url w) = Returned r -> r <> PNone ->
  stdout (snd (scrapper url w)) = stdout w.
Proof.
  destruct (session_open w) eqn:Hopen.
  2: { rewrite scrapper_closed by assumption. discriminate. }
  destruct (load (web w url)) as [u | e] eqn:Hload.
  2: { rewrite (scrapper_load_fails url w e) by assumption. discriminate. }
  rewrite (scrapper_eq url w u Hopen Hload).
  destruct (title_element (web w url)) as [name_ele | e].
  - destruct (product_record url (web w url) name_ele) as [d | e]; simpl.
    + intros _ _. apply app_nil_r.
    + destruct (decide (exc_class e = NoSuchElementException)); simpl;
        [intros [= <-]; contradiction | discriminate].
  - destruct (decide (exc_class e = TimeoutException)); simpl;
      [intros [= <-]; contradiction |].
    destruct (decide (exc_class e = NoSuchElementException)); simpl;
      [intros [= <-]; contradiction | discriminate].
Qed.



(** X2.  An exception that is no [NoSuchElementException], raised by the
    wait for the title (a [TimeoutException] apart) or by any read after
    it (a [TimeoutException] included), is not caught: it leaves
    [scrapper] once [quit] has run, and nothing is printed. *)
Theorem scrapper_unexpected_error url w u e :
  session_open w = true ->
  load (web w url) = Returned u ->
  exc_class e <> NoSuchElementException ->
  (title_element (web w url) = Raised e /\ exc_class e <> TimeoutException)
  \/ (exists name_ele, title_element (web w url) = Returned name_ele
                       /\ product_record url (web w url) name_ele = Raised e) ->
  scrapper url w = (Raised e, scraped url [] w).
Proof.
  intros Hopen Hload Hne Hcase. rewrite (scrapper_eq url w u Hopen Hload).
  destruct Hcase as [[-> Ht] | (name_ele & -> & ->)].
  - destruct (decide (exc_class e = TimeoutException)); [contradiction |].
    destruct (decide (exc_class e = NoSuchElementException)); [contradiction |].
    reflexivity.
  - destruct (decide (exc_class e = NoSuchElementException)); [contradiction |].
    reflexivity.
Qed.

Lemma scrapper_unexpected_error_witness :
  scrapper TEST_URL (new_world (fun _ => page_with_stale_price) ∅)
  = (Raised stale,
     scraped TEST_URL [] (new_world (fun _ => page_with_stale_price) ∅)).
Proof.
  apply (scrapper_unexpected_error TEST_URL
           (new_world (fun _ => page_with_stale_price) ∅) tt stale);
    try reflexivity.
  - discriminate.
  - right. exists (leaf "Vintage lamp" None). split; reflexivity.
Defined.

(** X3.  An [EBay] object scrapes once.  After a call whose load went
    through the browser is quit, and a second call on the same object
    raises at [browser.get], before its [try]: it returns no record, prints
    nothing and does not call [quit] again. *)
Theorem scrapper_single_use url url' w u :
  session_open w = true ->
  load (web w url) = Returned u ->
  scrapper url' (snd (scrapper url w))
  = (Raised session_lost, snd (scrapper url w)).
Proof.
  intros Hopen Hload. apply scrapper_closed.
  apply (scrapper_quits_once url w u Hopen Hload).
Qed.

Lemma scrapper_single_use_witness :
  scrapper TEST_URL (snd (scrapper TEST_URL (new_world (fun _ => sample_page) ∅)))
  = (Raised session_lost,
     snd (scrapper TEST_URL (new_world (fun _ => sample_page) ∅))).
Proof.
  apply (scrapper_single_use TEST_URL TEST_URL
           (new_world (fun _ => sample_page) ∅) tt); reflexivity.
Defined.

(** X4.  [scrapper] writes no file: on every way out, with the session
    open or not, the page loaded or not, the files are what they were. *)
Theorem scrapper_writes_no_file url w :
  files (snd (scrapper url w)) = files w.
Proof. apply scrapper_frame. Qed.

(** *** What [scrapper] returns, and the script *)

(** The keys of the record, in the order [scrapper] writes them. *)
Lemma product_record_shape url p name_ele r :
  product_record url p name_ele = Returned r ->
  exists name path_img price seller shipping_cost,
    r = PDict [("name", PStr name);
               ("path_img", PList (of_attribute <$> path_img));
               ("current_url", PStr url);
               ("price", PStr price);
               ("seller", of_attribute seller);
               ("shipping_cost", PStr shipping_cost)].
Proof.
  unfold product_record.
  destruct (text name_ele) as [name |]; simpl; [| discriminate].
  destruct (carousel_read p) as [path_img |]; simpl; [| discriminate].
  destruct (price_read p) as [price |]; simpl; [| discriminate].
  destruct (seller_read p) as [seller |]; simpl; [| discriminate].
  destruct (shipping_read p) as [shipping_cost |]; simpl; [| discriminate].
  intros [= <-]. eauto 10.
Qed.

(** What [scrapper] can return: [None], or a record. *)
Lemma scrapper_returns url w r :
  fst (scrapper url w) = Returned r ->
  r = PNone
  \/ exists name_ele, product_record url (web w url) name_ele = Returned r.
Proof.
  destruct (session_open w) eqn:Hopen.
  2: { rewrite scrapper_closed by assumption. discriminate. }
  destruct (load (web w url)) as [u | e] eqn:Hload.
  2: { rewrite (scrapper_load_fails url w e) by assumption. discriminate. }
  rewrite (scrapper_eq url w u Hopen Hload).
  destruct (title_element (web w url)) as [name_ele | e].
  - destruct (product_record url (web w url) name_ele) as [d | e] eqn:Hrec; simpl.
    + intros [= <-]. eauto.
    + destruct (decide (exc_class e = NoSuchElementException)); simpl;
        [intros [= <-]; auto | discriminate].
  - destruct (decide (exc_class e = TimeoutException)); simpl;
      [intros [= <-]; auto |].
    destruct (decide (exc_class e = NoSuchElementException)); simpl;
      [intros [= <-]; auto | discriminate].
Qed.

(** A list of attribute values is serialized at every depth. *)
Lemma encode_attributes float_repr indent level (values : list (option string)) :
  exists s, encode float_repr indent level (PList (of_attribute <$> values))
            = Returned s.
Proof.
  simpl. destruct values as [| a values]; [simpl; eauto |].
  set (chunks := fix chunks (l : list PyObj) : result (list string) := _).
  assert (Hc : forall l : list (option string),
             exists cs, chunks (of_attribute <$> l) = Returned cs).
  { induction l as [| b l [cs IH]]; simpl; [eauto |].
    change (list_fmap _ _ of_attribute l) with (of_attribute <$> l).
    rewrite IH. destruct b; simpl; eauto. }
  destruct (Hc (a :: values)) as [cs Hcs].
  change (of_attribute <$> a :: values) with (of_attribute <$> (a :: values)).
  rewrite Hcs. eauto.
Qed.

(** [json.dumps] serializes whatever [scrapper] returns. *)
Lemma scrapper_result_dumps float_repr url w r :
  fst (scrapper url w) = Returned r ->
  exists s, json_dumps float_repr 4 r = Returned s.
Proof.
  intros Hr.
  destruct (scrapper_returns url w r Hr) as [-> | (name_ele & Hrec)];
    [simpl; eauto |].
  destruct (product_record_shape _ _ _ _ Hrec)
    as (name & path_img & price & seller & shipping_cost & ->).
  destruct (encode_attributes float_repr 4 1 path_img) as [imgs Himgs].
  unfold json_dumps.
  remember (PList (of_attribute <$> path_img)) as images.
  assert (Hseller : exists t, encode float_repr 4 1 (of_attribute seller)
                              = Returned t)
    by (destruct seller; simpl; eauto).
  destruct Hseller as [t Ht].
  remember (of_attribute seller) as seller_value.
  simpl. rewrite Himgs, Ht. eauto.
Qed.

(** X5.  What [scrapper] returns is [None] or a dictionary with the six
    keys [name], [path_img], [current_url], [price], [seller],
    [shipping_cost], in this order, and [json.dumps] serializes it: the
    two writers never raise on a result of [scrapper]. *)
Theorem scrapper_result_serializable float_repr url w r :
  fst (scrapper url w) = Returned r ->
  (r = PNone
   \/ exists d, r = PDict d
                /\ fst <$> d = ["name"; "path_img"; "current_url"; "price";
                                "seller"; "shipping_cost"])
  /\ (exists s, json_dumps float_repr 4 r = Returned s)
  /\ fst (write_to_file float_repr r (snd (scrapper url w))) = Returned tt
  /\ fst (write_to_console float_repr r (snd (scrapper url w))) = Returned tt.
Proof.
  intros Hr.
  pose proof (scrapper_result_dumps float_repr url w r Hr) as Hs.
  split; [| split; [exact Hs | split]].
  - destruct (scrapper_returns url w r Hr) as [-> | (name_ele & Hrec)]; [auto |].
    right. destruct (product_record_shape _ _ _ _ Hrec)
      as (name & path_img & price & seller & shipping_cost & ->).
    eexists. split; reflexivity.
  - destruct Hs as [s Hs]. now rewrite (write_to_file_serializable _ _ s).
  - destruct Hs as [s Hs]. unfold write_to_console.
    erewrite try_except_returned; [reflexivity |].
    erewrite bind_returned by (unfold lift; rewrite Hs; reflexivity).
    reflexivity.
Qed.

Lemma scrapper_result_serializable_witness :
  exists s, json_dumps sample_float_repr 4 sample_record = Returned s.
Proof.
  destruct (scrapper_result_serializable sample_float_repr TEST_URL
              (new_world (fun _ => sample_page) ∅) sample_record eq_refl)
    as (_ & Hs & _).
  exact Hs.
Defined.

Lemma write_to_console_serializable float_repr data s w :
  json_dumps float_repr 4 data = Returned s ->
  write_to_console float_repr data w = print s w.
Proof.
  intros H. unfold write_to_console.
  erewrite try_except_returned; [reflexivity |].
  erewrite bind_returned by (unfold lift; rewrite H; reflexivity).
  reflexivity.
Qed.

Lemma record_is_true url p name_ele r :
  product_record url p name_ele = Returned r -> is_true r = true.
Proof.
  intros H. destruct (product_record_shape _ _ _ _ H)
    as (? & ? & ? & ? & ? & ->). reflexivity.
Qed.

(** X6.  The script on a page that gives a record: it prints the
    serialization of the record, one line and nothing else, puts the same
    text into [temp.json] in place of what was there, and ends without an
    exception. *)
Theorem main_writes_what_it_prints float_repr w r :
  fst (scrapper TEST_URL w) = Returned r ->
  r <> PNone ->
  exists s,
    json_dumps float_repr 4 r = Returned s
    /\ fst (main float_repr w) = Returned tt
    /\ stdout (snd (main float_repr w)) = stdout w ++ [s]
    /\ files (snd (main float_repr w)) = <[path_file := s]> (files w).
Proof.
  intros Hr Hsome.
  destruct (scrapper_result_dumps float_repr TEST_URL w r Hr) as (s & Hs).
  exists s. split; [exact Hs |].
  assert (Htrue : is_true r = true).
  { destruct (scrapper_returns TEST_URL w r Hr) as [-> | (name_ele & Hrec)];
      [contradiction | eapply record_is_true, Hrec]. }
  pose proof (scrapper_quiet TEST_URL w r Hr Hsome) as Hquiet.
  pose proof (scrapper_frame TEST_URL w) as [_ Hfiles].
  unfold main, mbind, M_bind, bind.
  destruct (scrapper TEST_URL w) as [res w1]. simpl in *. subst res.
  rewrite Htrue.
  rewrite (write_to_console_serializable float_repr r s w1 Hs). simpl.
  rewrite (write_to_file_serializable float_repr r s _ Hs). simpl.
  rewrite Hquiet, Hfiles. auto.
Qed.

Lemma main_writes_what_it_prints_witness :
  exists s,
    json_dumps sample_float_repr 4 sample_record = Returned s
    /\ fst (main sample_float_repr (new_world (fun _ => sample_page) ∅))
       = Returned tt
    /\ stdout (snd (main sample_float_repr (new_world (fun _ => sample_page) ∅)))
       = [] ++ [s]
    /\ files (snd (main sample_float_repr (new_world (fun _ => sample_page) ∅)))
       = <[path_file := s]> ∅.
Proof.
  apply (main_writes_what_it_prints sample_float_repr
           (new_world (fun _ => sample_page) ∅) sample_record).
  - reflexivity.
  - discriminate.
Defined.

(** X7.  The script on a page that gives no record: when [scrapper]
    returns [None] the script ends without an exception, and when
    [scrapper] raises the script raises the same; in both cases no file is
    opened, so [temp.json] keeps what an earlier run left in it. *)
Theorem main_leaves_file_without_record float_repr w :
  (fst (scrapper TEST_URL w) = Returned PNone ->
   main float_repr w = (Returned tt, snd (scrapper TEST_URL w))
   /\ files (snd (main float_repr w)) = files w)
  /\ (forall e, fst (scrapper TEST_URL w) = Raised e ->
                main float_repr w = (Raised e, snd (scrapper TEST_URL w))
                /\ files (snd (main float_repr w)) = files w).
Proof.
  pose proof (scrapper_frame TEST_URL w) as [_ Hfiles].
  unfold main, mbind, M_bind, bind.
  destruct (scrapper TEST_URL w) as [res w1]. simpl in *.
  split.
  - intros ->. simpl. auto.
  - intros e ->. auto.
Qed.

Lemma main_leaves_file_without_record_witness :
  fst (main sample_float_repr (new_world (fun _ => blank_page) ∅)) = Returned tt
  /\ files (snd (main sample_float_repr (new_world (fun _ => blank_page) ∅))) = ∅
  /\ fst (main sample_float_repr (new_world (fun _ => unreachable_page) ∅))
     = Raised net_error
  /\ files (snd (main sample_float_repr (new_world (fun _ => unreachable_page) ∅)))
     = ∅.
Proof.
  destruct (main_leaves_file_without_record sample_float_repr
              (new_world (fun _ => blank_page) ∅)) as [Hnone _].
  destruct (main_leaves_file_without_record sample_float_repr
              (new_world (fun _ => unreachable_page) ∅)) as [_ Hraise].
  destruct (Hnone eq_refl) as [Hmain Hfiles].
  destruct (Hraise net_error eq_refl) as [Hmain' Hfiles'].
  split; [now rewrite Hmain |]. split; [exact Hfiles |].
  split; [now rewrite Hmain' | exact Hfiles'].
Defined.

End EBayBehaviour.

(** ** More on restcountries.py: requests, the table, the script *)
Module RestCountriesBehaviour.
Import RestCountries PythonFacts RestCountriesFacts.

(** *** [_get_request] *)



(** Handing [self._fields] over as [params] is what [_get_request] does by
    itself when it is given no parameters. *)
Lemma get_request_explicit_fields self url p w :
  plain_instance w self ->
  class_attrs w !! "_fields" = Some p ->
  _get_request self url (Some p) w = _get_request self url None w.
Proof.
  intros Hself Hclass. unfold _get_request, mbind, M_bind, bind.
  rewrite (getattr_fields self p w Hself Hclass). reflexivity.
Qed.

(** X9.  [get_by_fullname] is [get_by_name] after one write.  The exact
    search puts [fullText] into the dictionary the class attribute
    [_fields] is bound to and then does what [get_by_name] does in the
    state it has made: the same request, the same result, the same table.
    The two differ by that write and by nothing they pass. *)
Theorem fullname_is_name_after_write self fullname p d w :
  plain_instance w self ->
  class_attrs w !! "_fields" = Some p ->
  heap w !! p = Some (JDict d) ->
  get_by_fullname self fullname w
  = get_by_name self fullname
      (set_heap (<[p := JDict (dict_set "fullText" (JStr "true") d)]> (heap w)) w).
Proof.
  intros Hself Hclass Hp. unfold get_by_fullname, get_by_name. cbv zeta.
  rewrite (bind_returned _ _ _ _ _ (getattr_fields self p w Hself Hclass)).
  unfold mbind at 1, M_bind at 1, bind at 1, obj_setitem at 1.
  rewrite Hp. cbn [setitem].
  set (w1 := set_heap _ w).
  assert (Hself1 : plain_instance w1 self) by exact Hself.
  assert (Hclass1 : class_attrs w1 !! "_fields" = Some p) by exact Hclass.
  rewrite (bind_returned _ _ _ _ _ (getattr_fields self p w1 Hself1 Hclass1)).
  unfold mbind at 1, M_bind at 1, bind at 1.
  rewrite (get_request_explicit_fields self _ p w1 Hself1 Hclass1).
  reflexivity.
Qed.

Lemma fullname_is_name_after_write_witness :
  get_by_fullname client "Germany" (client_world (always (JList [estonia])))
  = get_by_name client "Germany"
      (set_heap (<[fields_loc :=
                     JDict [("fields", JList [JStr "name"; JStr "capital"; JStr "flags"]);
                            ("fullText", JStr "true")]]>
                   (heap (client_world (always (JList [estonia])))))
         (client_world (always (JList [estonia])))).
Proof.
  apply (fullname_is_name_after_write client "Germany" fields_loc
           [("fields", JList [JStr "name"; JStr "capital"; JStr "flags"])]
           (client_world (always (JList [estonia])))).
  - exists ∅. split; reflexivity.
  - reflexivity.
  - reflexivity.
Defined.

(** *** [_print_table] *)

(** X10.  [_print_table] on an empty list raises [KeyError]: the frame has
    no column to select.  Nothing is printed and nothing changes; the
    entry points never get there, as an empty list is false. *)
Theorem print_table_empty_list self data w :
  heap w !! data = Some (JList []) ->
  exists e, _print_table self data w = (Raised e, w)
            /\ exc_class e = KeyError.
Proof.
  intros Hdata. rewrite (print_table_list self data [] w Hdata). simpl.
  rewrite insert_id by exact Hdata. rewrite set_heap_same. eauto.
Qed.

Lemma print_table_empty_list_witness :
  exists e, _print_table client sample_list (world_with_list [])
            = (Raised e, world_with_list [])
            /\ exc_class e = KeyError.
Proof.
  apply (print_table_empty_list client sample_list (world_with_list [])).
  reflexivity.
Defined.

Lemma flatten_all_app good rest :
  forallb well_formed_country good = true ->
  flatten_all (good ++ rest)
  = (fst (flatten_all rest), (flattened <$> good) ++ snd (flatten_all rest)).
Proof.
  induction good as [| r good IH]; simpl.
  - intros _. now destruct (flatten_all rest).
  - intros [Hr Hgood]%andb_prop.
    destruct (flatten_country_returns r Hr) as [-> _].
    now rewrite (IH Hgood).
Qed.

(** X11.  [_print_table] is not all or nothing.  When a record of the list
    is one the loop body raises on, the call raises and prints nothing,
    and the list of the caller is left half done: the records before it
    are flattened, the record itself is as far as the body got, the
    records after it are untouched. *)
Theorem print_table_stops_half_way self data good bad rest w :
  heap w !! data = Some (JList (good ++ bad :: rest)) ->
  forallb well_formed_country good = true ->
  well_formed_country bad = false ->
  exists e,
    _print_table self data w
    = (Raised e,
       set_heap (<[data := JList ((flattened <$> good) ++ flattened bad :: rest)]>
                   (heap w)) w).
Proof.
  intros Hdata Hgood Hbad.
  rewrite (print_table_list self data _ w Hdata). cbv zeta.
  rewrite (flatten_all_app good (bad :: rest) Hgood). simpl.
  destruct (flatten_country_raises bad Hbad) as [e He].
  unfold flattened. destruct (flatten_country bad) as [res bad'].
  simpl in He. subst res. simpl. eauto.
Qed.

Lemma print_table_stops_half_way_witness :
  exists e,
  _print_table client sample_list
    (world_with_list [estonia; bouvet_island; antarctica])
  = (Raised e,
     set_heap
       (<[sample_list :=
            JList [JDict [("flags", JStr "https://flagcdn.com/w320/ee.png");
                          ("name", JStr "Estonia"); ("capital", JStr "Tallinn")];
                   JDict [("flags", JDict [("png", JStr "https://flagcdn.com/w320/bv.png")]);
                          ("name", JStr "Bouvet Island")];
                   antarctica]]>
          (heap (world_with_list [estonia; bouvet_island; antarctica])))
       (world_with_list [estonia; bouvet_island; antarctica])).
Proof.
  destruct (print_table_stops_half_way client sample_list
              [estonia] bouvet_island [antarctica]
              (world_with_list [estonia; bouvet_island; antarctica])
              eq_refl eq_refl eq_refl) as [e He].
  exists e. rewrite He. reflexivity.
Defined.


Lemma records_render records :
  records <> [] ->
  Forall (fun r => exists common capital png, country_record r common capital png)
         records ->
  renders (JList records) = true.
Proof.
  intros Hne Hall. destruct records as [| r rs]; [contradiction |].
  unfold renders. apply forallb_forall. intros x Hx.
  rewrite Forall_forall in Hall.
  destruct (Hall x) as (common & capital & png & Hrec);
    [now apply list_elem_of_In |].
  eapply country_record_well_formed, Hrec.
Qed.



Lemma displayed_cells r common capital png :
  displayed r common capital png ->
  cell r <$> table_columns = [common; collapse capital; png].
Proof.
  intros (d & -> & Hn & Hc & Hf). unfold table_columns. simpl.
  now rewrite Hn, Hc, Hf.
Qed.

(** The rows of the table, record by record. *)
Lemma print_table_frame_rows self data records rows w :
  heap w !! data = Some (JList records) ->
  records <> [] ->
  Forall2 (fun r row => exists common capital png,
                          country_record r common capital png
                          /\ row = [common; collapse capital; png])
          records rows ->
  fst (_print_table self data w) = Returned tt
  /\ stdout (snd (_print_table self data w))
     = stdout w ++ [Frame ["Name"; "Capital city"; "Flag"] rows; Line newline].
Proof.
  intros Hdata Hne Hrows.
  assert (Hall : Forall (fun r => exists common capital png,
                           country_record r common capital png) records).
  { clear Hdata Hne. induction Hrows as [| r row rs rows' (c & cap & png & Hr & _) _ IH];
      constructor; eauto. }
  pose proof (records_render records Hne Hall) as Hok.
  rewrite (print_table_list self data records w Hdata). cbv zeta.
  assert (Hwf : forallb well_formed_country records = true)
    by (destruct records; [contradiction | exact Hok]).
  rewrite (flatten_all_well_formed records Hwf). cbn [fst snd].
  assert (Hsel : select_columns (flattened <$> records) table_columns
                 = Returned rows).
  { unfold select_columns.
    assert (Hcols : forallb (has_column (flattened <$> records)) table_columns
                    = true).
    { destruct records as [| r rs]; [contradiction |].
      simpl in Hwf. apply andb_prop in Hwf as [Hr _].
      destruct (flatten_country_returns r Hr) as [_ (d & Hd & Hn & Hc & Hf)].
      rewrite fmap_cons, Hd. unfold table_columns. cbn [forallb].
      now rewrite !has_column_first by assumption. }
    rewrite Hcols. f_equal. clear Hdata Hne Hall Hok Hwf Hcols.
    induction Hrows as [| r row rs rows' (c & cap & png & Hr & ->) _ IH];
      [reflexivity |].
    rewrite !fmap_cons, IH. f_equal.
    apply displayed_cells. now apply country_record_flattened. }
  rewrite Hsel. split; reflexivity.
Qed.

(** X13.  The table has one row for each record, in the order of the
    list, no record left out and none moved: the row of a record is its
    common name, its capital as the loop body leaves it, and its PNG
    address, under the labels Name, Capital city, Flag; a line feed
    follows the table. *)
Theorem print_table_rows self data records rows w :
  heap w !! data = Some (JList records) ->
  records <> [] ->
  Forall2 (fun r row => exists common capital png,
                          country_record r common capital png
                          /\ row = [common; collapse capital; png])
          records rows ->
  fst (_print_table self data w) = Returned tt
  /\ stdout (snd (_print_table self data w))
     = stdout w ++ [Frame ["Name"; "Capital city"; "Flag"] rows; Line newline].
Proof. apply print_table_frame_rows. Qed.

Lemma print_table_rows_witness :
  fst (_print_table client sample_list
         (world_with_list [estonia; south_africa; antarctica]))
  = Returned tt
  /\ stdout (snd (_print_table client sample_list
                    (world_with_list [estonia; south_africa; antarctica])))
     = [] ++
       [Frame ["Name"; "Capital city"; "Flag"]
          [[JStr "Estonia"; JStr "Tallinn"; JStr "https://flagcdn.com/w320/ee.png"];
           [JStr "South Africa";
            JList [JStr "Pretoria"; JStr "Bloemfontein"; JStr "Cape Town"];
            JStr "https://flagcdn.com/w320/za.png"];
           [JStr "Antarctica"; JStr "None"; JStr "https://flagcdn.com/w320/aq.png"]];
        Line newline].
Proof.
  apply (print_table_rows client sample_list [estonia; south_africa; antarctica] _
           (world_with_list [estonia; south_africa; antarctica])).
  - reflexivity.
  - discriminate.
  - repeat constructor.
    + exists (JStr "Estonia"), [JStr "Tallinn"], (JStr "https://flagcdn.com/w320/ee.png").
      split; [| reflexivity].
      unfold country_record, estonia, country. eexists _, _, _.
      repeat split; reflexivity.
    + exists (JStr "South Africa"),
        [JStr "Pretoria"; JStr "Bloemfontein"; JStr "Cape Town"],
        (JStr "https://flagcdn.com/w320/za.png").
      split; [| reflexivity].
      unfold country_record, south_africa, country. eexists _, _, _.
      repeat split; reflexivity.
    + exists (JStr "Antarctica"), [], (JStr "https://flagcdn.com/w320/aq.png").
      split; [| reflexivity].
      unfold country_record, antarctica, country. eexists _, _, _.
      repeat split; reflexivity.
Defined.

(** X14.  [_print_table] changes the list it is given and the console,
    and nothing else: however the call ends, every other object is what it
    was, the class and its instances are as they were, and no request is
    sent. *)
Theorem print_table_touches_only_its_list self data w :
  class_attrs (snd (_print_table self data w)) = class_attrs w
  /\ instances (snd (_print_table self data w)) = instances w
  /\ requests (snd (_print_table self data w)) = requests w
  /\ forall l, l <> data ->
               heap (snd (_print_table self data w)) !! l = heap w !! l.
Proof.
  destruct (heap w !! data) as [obj |] eqn:Hdata.
  2: { unfold _print_table. erewrite bind_raised; [auto |].
       unfold deref. rewrite Hdata. reflexivity. }
  destruct obj as [| b | n | f | s | items | d];
    try (destruct (print_table_other self data _ w Hdata I) as [e ->]; now auto).
  rewrite (print_table_list self data items w Hdata). cbv zeta.
  assert (Hother : forall items' l, l <> data ->
             <[data := JList items']> (heap w) !! l = heap w !! l).
  { intros items' l Hne. now apply lookup_insert_ne. }
  destruct (flatten_all items) as [[[] | e] items']; simpl; [| auto].
  destruct (select_columns items' table_columns); simpl; auto.
Qed.

(** *** The entry points *)

(** X15.  One call, one GET.  Every entry point sends exactly one request,
    whatever the answer.  The ten that send the default parameters leave
    every object that was there as it was; [get_by_fullname] and
    [get_by_listcodes] write one key into the dictionary of [_fields], and
    no entry point rebinds an attribute of the class or of an instance. *)
Theorem entry_point_effect self c w d :
  fields_of w = Some d ->
  plain_instance w self ->
  requests (snd (invoke self c w)) = requests w ++ [call_request c d]
  /\ (sends_defaults c = true ->
      fields_of (snd (invoke self c w)) = Some d
      /\ forall l v, heap w !! l = Some v ->
                     heap (snd (invoke self c w)) !! l = Some v)
  /\ (forall fullname, c = ByFullname fullname ->
        fields_of (snd (invoke self c w))
        = Some (dict_set "fullText" (JStr "true") d))
  /\ (forall code, c = ByListcodes code ->
        fields_of (snd (invoke self c w))
        = Some (dict_set "codes" (JList (code_json <$> code)) d))
  /\ class_attrs (snd (invoke self c w)) = class_attrs w
  /\ instances (snd (invoke self c w)) = instances w.
Proof.
  intros Hfields Hself.
  destruct (fields_of_found w d Hfields) as (p & Hclass & Hp).
  destruct (invoke_spec self c w p d Hclass Hp Hself)
    as (Hc & Hi & _ & Hr & Hh & Hkeep & _).
  assert (Hf : fields_of (snd (invoke self c w)) = Some (call_fields c d)).
  { eapply fields_of_eq; [rewrite Hc; exact Hclass | exact Hh]. }
  split; [exact Hr |]. split; [| split; [| split; [| split; assumption]]].
  - intros Hdef.
    assert (Hsame : call_fields c d = d) by (destruct c; try reflexivity; discriminate).
    rewrite Hsame in *. split; [exact Hf |].
    intros l v Hl. destruct (decide (l = p)) as [-> | Hne].
    + congruence.
    + now apply Hkeep.
  - intros fullname ->. exact Hf.
  - intros code ->. exact Hf.
Qed.

Lemma entry_point_effect_witness :
  requests (snd (invoke client (ByCapital "tallinn") (client_world not_found)))
  = [] ++ [call_request (ByCapital "tallinn")
             [("fields", JList [JStr "name"; JStr "capital"; JStr "flags"])]].
Proof.
  destruct (entry_point_effect client (ByCapital "tallinn")
              (client_world not_found)
              [("fields", JList [JStr "name"; JStr "capital"; JStr "flags"])])
    as [Hreq _].
  - reflexivity.
  - exists ∅. split; reflexivity.
  - exact Hreq.
Defined.

(** X16.  An exception of the transport is not caught.  When
    [requests.get] raises (no connection, a timeout of the socket), the
    entry point raises the same exception; by then the request has gone
    out, nothing is printed, and what [get_by_fullname] or
    [get_by_listcodes] wrote into [_fields] stays. *)
Theorem transport_error_propagates self c w d e :
  fields_of w = Some d ->
  plain_instance w self ->
  answer w c d = Raised e ->
  fst (invoke self c w) = Raised e
  /\ stdout (snd (invoke self c w)) = stdout w
  /\ requests (snd (invoke self c w)) = requests w ++ [call_request c d]
  /\ fields_of (snd (invoke self c w)) = Some (call_fields c d).
Proof.
  intros Hfields Hself Hans.
  destruct (fields_of_found w d Hfields) as (p & Hclass & Hp).
  destruct (invoke_spec self c w p d Hclass Hp Hself)
    as (Hc & _ & _ & Hr & Hh & _ & out & Hout & Hverdict).
  unfold answer in Hans. unfold verdict in Hverdict. rewrite Hans in Hverdict.
  destruct Hverdict as [Hres ->]. rewrite app_nil_r in Hout.
  split; [exact Hres |]. split; [exact Hout |]. split; [exact Hr |].
  eapply fields_of_eq; [rewrite Hc; exact Hclass | exact Hh].
Qed.

Lemma transport_error_propagates_witness :
  fst (get_by_fullname client "Germany" (client_world unreachable))
  = Raised connection_error
  /\ fields_of (snd (get_by_fullname client "Germany" (client_world unreachable)))
     = Some [("fields", JList [JStr "name"; JStr "capital"; JStr "flags"]);
             ("fullText", JStr "true")].
Proof.
  destruct (transport_error_propagates client (ByFullname "Germany")
              (client_world unreachable)
              [("fields", JList [JStr "name"; JStr "capital"; JStr "flags"])]
              connection_error)
    as (Hres & _ & _ & Hfields).
  - reflexivity.
  - exists ∅. split; reflexivity.
  - reflexivity.
  - split; [exact Hres | exact Hfields].
Defined.






(** The value under [codes] stays over every call but [get_by_listcodes]. *)
Lemma codes_value_stays c d v :
  is_listcodes c = false ->
  dict_get "codes" d = Some v ->
  dict_get "codes" (call_fields c d) = Some v.
Proof.
  intros Hc Hd. destruct c; simpl; try exact Hd.
  - now rewrite dict_get_set_ne.
  - discriminate.
Qed.

Lemma run_keeps_codes v prog :
  forall w,
    forallb leaves_codes prog = true ->
    settled (fun d => dict_get "codes" d = Some v) w ->
    settled (fun d => dict_get "codes" d = Some v) (run prog w).
Proof.
  induction prog as [| a prog IH]; intros w Hprog Hw; simpl; [exact Hw |].
  simpl in Hprog. apply andb_prop in Hprog as [Ha Hprog].
  apply IH; [exact Hprog |].
  destruct Hw as [Hstate (d & Hfields & Hd)].
  destruct a as [| self c]; simpl.
  - split; [now apply class_state_new |]. eauto.
  - destruct (instances w !! self) as [attrs |] eqn:Hself.
    + destruct (invoke_settled (fun _ => True) (fun _ _ _ => I) self c w d)
        as ([Hstate1 _] & _ & Hfields1); try assumption; [| exact I |].
      { exists attrs. split; [exact Hself |].
        destruct Hstate as [_ Hplain]. eapply Hplain, Hself. }
      split; [exact Hstate1 |]. exists (call_fields c d).
      split; [exact Hfields1 |].
      apply codes_value_stays; [| exact Hd].
      simpl in Ha. now destruct (is_listcodes c).
    + rewrite invoke_no_instance by exact Hself.
      split; [exact Hstate |]. eauto.
Qed.

(** X18.  What leaks is the latest list.  [get_by_listcodes] puts its list
    under [codes] in place of an older one; whatever is then called on
    whatever instances, as long as it is no other [get_by_listcodes], the
    next call of any other entry point sends that very list. *)
Theorem leaked_codes_are_the_latest a b prog c code w :
  class_state w ->
  is_Some (instances w !! a) ->
  forallb leaves_codes prog = true ->
  is_listcodes c = false ->
  is_Some (instances (run prog (snd (get_by_listcodes a code w))) !! b) ->
  exists req,
    requests (snd (invoke b c (run prog (snd (get_by_listcodes a code w)))))
    = requests (run prog (snd (get_by_listcodes a code w))) ++ [req]
    /\ param req "codes" = Some (JList (code_json <$> code)).
Proof.
  intros Hstate [attrs Ha] Hprog Hc [attrs' Hb].
  pose proof Hstate as [[d Hfields] Hplain].
  assert (Hw1 : settled (fun d => dict_get "codes" d
                                  = Some (JList (code_json <$> code)))
                  (snd (get_by_listcodes a code w))).
  { destruct (invoke_settled (fun _ => True) (fun _ _ _ => I) a
                (ByListcodes code) w d)
      as ([Hstate1 _] & _ & Hfields1); try assumption; [| exact I |].
    { exists attrs. split; [exact Ha | eapply Hplain, Ha]. }
    split; [exact Hstate1 |]. eexists. split; [exact Hfields1 |].
    apply dict_get_set_eq. }
  destruct (run_keeps_codes _ prog _ Hprog Hw1) as [Hstate2 (d2 & Hfields2 & Hd2)].
  set (w2 := run prog (snd (get_by_listcodes a code w))) in *.
  destruct (invoke_settled (fun _ => True) (fun _ _ _ => I) b c w2 d2)
    as (_ & Hr & _); try assumption; [| exact I |].
  { exists attrs'. split; [exact Hb |]. destruct Hstate2 as [_ Hplain2].
    eapply Hplain2, Hb. }
  eexists. split; [exact Hr |].
  unfold param, call_request. cbn [req_params].
  now apply codes_value_stays.
Qed.

Lemma leaked_codes_are_the_latest_witness :
  exists req,
    requests (snd (get_by_currency client "cop"
                     (run [New; Invoke client (ByFullname "Peru")]
                        (snd (get_by_listcodes client [IntCode 170; StrCode "pe"]
                                (snd (get_by_listcodes client [StrCode "de"]
                                        (client_world not_found))))))))
    = requests (run [New; Invoke client (ByFullname "Peru")]
                  (snd (get_by_listcodes client [IntCode 170; StrCode "pe"]
                          (snd (get_by_listcodes client [StrCode "de"]
                                  (client_world not_found))))))
      ++ [req]
    /\ param req "codes" = Some (JList [JInt 170; JStr "pe"]).
Proof.
  apply (leaked_codes_are_the_latest client client
           [New; Invoke client (ByFullname "Peru")] (ByCurrency "cop")
           [IntCode 170; StrCode "pe"]
           (snd (get_by_listcodes client [StrCode "de"] (client_world not_found)))).
  - refine (proj1 (step_settled (fun _ => True) (fun _ _ _ => I)
                     (Invoke client (ByListcodes [StrCode "de"]))
                     (client_world not_found) _)).
    split; [apply class_state_new, class_state_init |].
    eexists. split; [reflexivity | exact I].
  - eexists. reflexivity.
  - reflexivity.
  - reflexivity.
  - eexists. reflexivity.
Defined.

(** *** The script *)

(** Calls one after the other: what is sent is the start of what would be
    sent if none raised, and all of it when none raises. *)
Lemma invoke_all_requests self calls :
  forall w d,
    fields_of w = Some d ->
    plain_instance w self ->
    exists sent,
      requests (snd (invoke_all self calls w)) = requests w ++ sent
      /\ sent `prefix_of` requests_of d calls
      /\ (fst (invoke_all self calls w) = Returned tt ->
          sent = requests_of d calls).
Proof.
  induction calls as [| c calls IH]; intros w d Hfields Hself; simpl.
  - exists []. rewrite app_nil_r. auto.
  - destruct (fields_of_found w d Hfields) as (p & Hclass & Hp).
    destruct (invoke_spec self c w p d Hclass Hp Hself)
      as (Hc & Hi & _ & Hr & Hh & _).
    unfold mbind, M_bind, bind.
    destruct (invoke self c w) as [[res | e] w1]; cbn [fst snd] in *.
    + assert (Hfields1 : fields_of w1 = Some (call_fields c d)).
      { eapply fields_of_eq; [rewrite Hc; exact Hclass | exact Hh]. }
      assert (Hself1 : plain_instance w1 self).
      { destruct Hself as (attrs & Hs & Hown). exists attrs. now rewrite Hi. }
      destruct (IH w1 _ Hfields1 Hself1) as (sent & Hsent & Hpre & Hall).
      exists (call_request c d :: sent). split; [| split].
      * rewrite Hsent, Hr, <- app_assoc. reflexivity.
      * now apply prefix_cons.
      * intros Hret. now rewrite (Hall Hret).
    + exists [call_request c d]. split; [exact Hr |]. split; [| discriminate].
      apply prefix_cons, prefix_nil.
Qed.

(** X19.  The script, against any server.  The GETs it sends are the
    first ones of [script_requests], and all twelve when no call raises:
    from the third on (the call of [get_by_fullname]) every request of the
    script asks for an exact match, and from the fifth on (the call of
    [get_by_listcodes]) every request carries the two codes, the searches
    by currency, language or region as well. *)
Theorem script_sends srv :
  requests (snd (main (init_world srv))) `prefix_of` script_requests
  /\ (fst (main (init_world srv)) = Returned tt ->
      requests (snd (main (init_world srv))) = script_requests)
  /\ forall i req,
       requests (snd (main (init_world srv))) !! i = Some req ->
       (2 <= i -> param req "fullText" = Some (JStr "true"))
       /\ (4 <= i -> param req "codes" = Some (JList [JInt 170; JStr "pe"])).
Proof.
  assert (Hmain : main (init_world srv)
                  = invoke_all client script (client_world srv)) by reflexivity.
  rewrite Hmain.
  destruct (invoke_all_requests client script (client_world srv)
              [("fields", JList [JStr "name"; JStr "capital"; JStr "flags"])])
    as (sent & Hsent & Hpre & Hall).
  { reflexivity. }
  { exists ∅. split; reflexivity. }
  change (requests (client_world srv) ++ sent) with sent in Hsent.
  rewrite Hsent.
  change (requests_of _ script) with script_requests in *.
  split; [exact Hpre |]. split; [exact Hall |].
  intros i req Hi.
  pose proof (prefix_lookup_Some _ _ _ _ Hi Hpre) as Hreq.
  do 12 (destruct i as [| i];
         [injection Hreq as <-; split; intros; first [lia | reflexivity] |]).
  discriminate.
Qed.

End RestCountriesBehaviour.
